(** * Error-detection assistant: relay endpoint and browser client

    A shallow embedding of [server.js] (the [/api/analyze] relay) and of
    [public/app.js] (the page controller), with the properties the
    specification states about them.

    - [Module JS]: the JavaScript values the two files handle and the
      built-ins they call ([typeof], truthiness, [?.], [??], [trim],
      [replaceAll], [JSON.parse]).
    - [Module Server]: [buildPrompt] and the [/api/analyze] handler.
    - [Module Client]: the page state and the functions of [app.js].
    - [Module Page]: the rest of [app.js] (language buttons, gutter,
      reset, speech, clipboard) and the page as a transition system.
    - [Module Exchange]: what a value becomes between the page and the
      relay.
    - [Module Runs], [Module Visits]: concrete replies, requests, pages
      and sequences of events.
    - [Module ServerFacts], [Module ClientFacts]: the properties.
    - [Module Scenarios]: the built-ins and the two files run on the
      scenarios of the specification.
    - [Module RelayFacts], [Module PageFacts], [Module ExchangeFacts]:
      more properties of the relay, of the page, and of the two
      together. *)

From Stdlib Require Import ZArith NArith List String Ascii Bool DecimalString.
From Stdlib Require Import Floats.SpecFloat.
From stdpp Require Import base option list gmap functions.
Import ListNotations.

Set Warnings "-register-all".
Local Open Scope string_scope.
Local Open Scope list_scope.
Local Open Scope N_scope.

(* ===================================================================== *)
(** * JavaScript values and built-ins                                     *)
(* ===================================================================== *)
Module JS.

(** A JavaScript string is a sequence of UTF-16 code units. *)
Definition jsstring : Type := list N.

(** Source literals.  A Rocq string cannot hold a double quote without
    doubling it, so in the literals of this file the backquote (which no
    literal of the source contains) is written where the source has a
    double quote; [js] maps it back to code unit 34. *)
Definition js (s : string) : jsstring :=
  map (fun a => let c := N_of_ascii a in if c =? 96 then 34 else c)
      (list_ascii_of_string s).

(** Numbers are IEEE 754 binary64 values. *)
Definition number : Type := spec_float.

Inductive value : Type :=
| VUndefined
| VNull
| VBool (b : bool)
| VNum (n : number)
| VStr (s : jsstring)
| VArr (items : list value)
| VObj (props : gmap (list N) value).

(** An object literal [{k1: v1, ...}]; a later duplicate key wins. *)
Definition object (kvs : list (string * value)) : value :=
  VObj (list_to_map (reverse (map (fun kv => (js kv.1, kv.2)) kvs))).

(** Every exception raised in the two files is an [Error] instance, so
    [e instanceof Error ? e.message : String(e)] is [e.message]. *)
Record exn : Type := Error { message : jsstring }.

(** [typeof v] *)
Inductive type_tag : Type :=
| TUndefined | TObject | TBoolean | TNumber | TString.

Definition typeof (v : value) : type_tag :=
  match v with
  | VUndefined => TUndefined
  | VNull => TObject
  | VBool _ => TBoolean
  | VNum _ => TNumber
  | VStr _ => TString
  | VArr _ => TObject
  | VObj _ => TObject
  end.

(** [Boolean(v)], the test of [!v], [v || w] and [v && w]. *)
Definition truthy (v : value) : bool :=
  match v with
  | VUndefined | VNull => false
  | VBool b => b
  | VNum (S754_zero _) | VNum S754_nan => false
  | VNum _ => true
  | VStr s => match s with [] => false | _ => true end
  | VArr _ | VObj _ => true
  end.

(** [v ?? w] *)
Definition nullish (v w : value) : value :=
  match v with
  | VUndefined | VNull => w
  | _ => v
  end.

(** [v || w] *)
Definition or_else (v w : value) : value := if truthy v then v else w.

(** [v?.name] for a property name that is neither [length], an index nor
    a name of a built-in prototype (the only names the source reads):
    own properties of objects, [undefined] on everything else.  The
    source writes plain [v.name] only where [v] has been tested truthy,
    and there the two agree. *)
Definition get (v : value) (name : string) : value :=
  match v with
  | VObj props => default VUndefined (props !! js name)
  | _ => VUndefined
  end.

(** The decimal spelling of an array index, as a property key. *)
Definition index_key (i : nat) : jsstring :=
  js (DecimalString.NilZero.string_of_uint (Nat.to_uint i)).

(** [v?.[i]] for a literal index [i]. *)
Definition get_index (v : value) (i : nat) : value :=
  match v with
  | VArr items => default VUndefined (items !! i)
  | VStr s => match s !! i with Some c => VStr [c] | None => VUndefined end
  | VObj props => default VUndefined (props !! index_key i)
  | _ => VUndefined
  end.

(** ** Strings *)

(** WhiteSpace and LineTerminator code points, all in the basic plane. *)
Definition is_whitespace (c : N) : bool :=
  (c =? 9) || (c =? 10) || (c =? 11) || (c =? 12) || (c =? 13) ||
  (c =? 32) || (c =? 160) || (c =? 5760) ||
  ((8192 <=? c) && (c <=? 8202)) ||
  (c =? 8232) || (c =? 8233) || (c =? 8239) || (c =? 8287) ||
  (c =? 12288) || (c =? 65279).

Fixpoint trimStart (s : jsstring) : jsstring :=
  match s with
  | c :: s' => if is_whitespace c then trimStart s' else s
  | [] => []
  end.

Definition trimEnd (s : jsstring) : jsstring := rev (trimStart (rev s)).

(** [s.trim()] *)
Definition trim (s : jsstring) : jsstring := trimEnd (trimStart s).

Fixpoint starts_with (p s : jsstring) : bool :=
  match p, s with
  | [], _ => true
  | a :: p', b :: s' => (a =? b) && starts_with p' s'
  | _ :: _, [] => false
  end.

(** [s.replaceAll(search, replacement)] for a non-empty [search] and a
    [replacement] without [$] patterns: the occurrences are found left to
    right and do not overlap.  [skip] counts the code units of the
    current match still to be dropped. *)
Fixpoint replaceAll_from (skip : nat) (search replacement s : jsstring)
  : jsstring :=
  match s with
  | [] => []
  | c :: s' =>
      match skip with
      | S k => replaceAll_from k search replacement s'
      | O =>
          if starts_with search s
          then replacement ++
               replaceAll_from (Nat.pred (length search)) search replacement s'
          else c :: replaceAll_from O search replacement s'
      end
  end.

Definition replaceAll (search replacement s : jsstring) : jsstring :=
  replaceAll_from O search replacement s.


(** An integer literal of the source, as a number. *)
Definition int (n : Z) : value := VNum (binary_normalize 53 1024 n 0 false).

#[global] Instance type_tag_eq_dec : EqDecision type_tag.
Proof. solve_decision. Defined.

(** [typeof v === 'string'], [typeof v === 'object'], ... *)
Definition has_type (v : value) (t : type_tag) : bool :=
  bool_decide (typeof v = t).

(** The string held by a value whose [typeof] is ['string']. *)
Definition string_of (v : value) : jsstring :=
  match v with
  | VStr s => s
  | _ => []
  end.

(** ** [JSON.parse]

    The JSON grammar of ECMA-404, read by recursive descent.  White space
    is space, tab, line feed and carriage return; a number is rounded to
    the nearest binary64 value, ties to even; a later duplicate key of an
    object replaces the earlier one. *)
Module JSON.

Definition is_ws (c : N) : bool :=
  (c =? 32) || (c =? 9) || (c =? 10) || (c =? 13).

Fixpoint skip_ws (s : jsstring) : jsstring :=
  match s with
  | c :: s' => if is_ws c then skip_ws s' else s
  | [] => []
  end.

Definition digit (c : N) : option N :=
  if (48 <=? c) && (c <=? 57) then Some (c - 48) else None.

Definition hex (c : N) : option N :=
  if (48 <=? c) && (c <=? 57) then Some (c - 48)
  else if (65 <=? c) && (c <=? 70) then Some (c - 55)
  else if (97 <=? c) && (c <=? 102) then Some (c - 87)
  else None.

(** The characters of a string literal after its opening quote, up to
    and including the closing quote. *)
Fixpoint chars (s : jsstring) : option (jsstring * jsstring) :=
  match s with
  | [] => None
  | c :: s1 =>
      if c =? 34 then Some ([], s1)
      else if c =? 92 then
        match s1 with
        | e :: s2 =>
            let unit (u : N) (rest : option (jsstring * jsstring)) :=
              '(str, s') ← rest; Some (u :: str, s') in
            if e =? 34 then unit 34 (chars s2)
            else if e =? 92 then unit 92 (chars s2)
            else if e =? 47 then unit 47 (chars s2)
            else if e =? 98 then unit 8 (chars s2)
            else if e =? 102 then unit 12 (chars s2)
            else if e =? 110 then unit 10 (chars s2)
            else if e =? 114 then unit 13 (chars s2)
            else if e =? 116 then unit 9 (chars s2)
            else if e =? 117 then
              match s2 with
              | a :: b :: c' :: d :: s3 =>
                  a ← hex a; b ← hex b; c' ← hex c'; d ← hex d;
                  unit (((a * 16 + b) * 16 + c') * 16 + d) (chars s3)
              | _ => None
              end
            else None
        | [] => None
        end
      else if c <? 32 then None
      else '(str, s') ← chars s1; Some (c :: str, s')
  end.

(** A maximal run of decimal digits, most significant first. *)
Fixpoint digits (s : jsstring) : list N * jsstring :=
  match s with
  | c :: s' =>
      match digit c with
      | Some d => let '(ds, rest) := digits s' in (d :: ds, rest)
      | None => ([], s)
      end
  | [] => ([], [])
  end.

Definition of_digits (ds : list N) : N :=
  fold_left (fun acc d => acc * 10 + d) ds 0.

(** The binary64 value nearest to [(-1)^neg * m * 10^e]. *)
Definition round_decimal (neg : bool) (m : N) (e : Z) : number :=
  match m with
  | N0 => S754_zero neg
  | Npos p =>
      if (0 <=? e)%Z
      then binary_round 53 1024 neg (p * Z.to_pos (10 ^ e)) 0
      else
        let '(q, e', l) :=
          SFdiv_core_binary 53 1024 (Zpos p) 0 (10 ^ (- e))%Z 0 in
        binary_round_aux 53 1024 neg q e' l
  end.

(** An optional sign: [-] for a number, [-] or [+] for an exponent. *)
Definition sign (plus : bool) (s : jsstring) : bool * jsstring :=
  match s with
  | c :: s' =>
      if c =? 45 then (true, s')
      else if plus && (c =? 43) then (false, s')
      else (false, s)
  | [] => (false, s)
  end.

(** [frac]: a point and at least one digit, or nothing. *)
Definition fraction (s : jsstring) : option (list N * jsstring) :=
  match s with
  | c :: s' =>
      if c =? 46 then
        let '(ds, rest) := digits s' in
        match ds with [] => None | _ :: _ => Some (ds, rest) end
      else Some ([], s)
  | [] => Some ([], s)
  end.

(** [exp]: [e] or [E], an optional sign and at least one digit, or
    nothing. *)
Definition exponent (s : jsstring) : option (Z * jsstring) :=
  match s with
  | c :: s' =>
      if (c =? 101) || (c =? 69) then
        let '(neg, s1) := sign true s' in
        let '(ds, rest) := digits s1 in
        match ds with
        | [] => None
        | _ :: _ =>
            let x := Z.of_N (of_digits ds) in
            Some (if neg then (- x)%Z else x, rest)
        end
      else Some (0%Z, s)
  | [] => Some (0%Z, s)
  end.

(** [-? int frac? exp?], where [int] has no leading zero. *)
Definition num (s : jsstring) : option (number * jsstring) :=
  let '(neg, s1) := sign false s in
  let '(int, s2) := digits s1 in
  match int with
  | [] => None
  | d :: int' =>
      if (d =? 0) && negb (Nat.eqb (length int') 0) then None else
      '(frac, s3) ← fraction s2;
      '(e, s4) ← exponent s3;
      Some (round_decimal neg (of_digits (int ++ frac))
                          (e - Z.of_nat (length frac))%Z, s4)
  end.

Definition keyword (k : string) (v : value) (s : jsstring)
  : option (value * jsstring) :=
  if starts_with (js k) s then Some (v, drop (length (js k)) s) else None.

(** Every call below consumes input or is followed by one that does, so
    fuel of twice the length of the text is never used up. *)
Fixpoint element (fuel : nat) (s : jsstring) : option (value * jsstring) :=
  match fuel with
  | O => None
  | S fuel =>
      match skip_ws s with
      | [] => None
      | c :: s1 =>
          if c =? 123 then
            match skip_ws s1 with
            | c' :: s2 =>
                if c' =? 125 then Some (VObj ∅, s2)
                else members fuel (skip_ws s1) ∅
            | [] => None
            end
          else if c =? 91 then
            match skip_ws s1 with
            | c' :: s2 =>
                if c' =? 93 then Some (VArr [], s2)
                else elements fuel (skip_ws s1) []
            | [] => None
            end
          else if c =? 34 then '(str, s2) ← chars s1; Some (VStr str, s2)
          else if c =? 116 then keyword "true" (VBool true) (c :: s1)
          else if c =? 102 then keyword "false" (VBool false) (c :: s1)
          else if c =? 110 then keyword "null" VNull (c :: s1)
          else '(n, s2) ← num (c :: s1); Some (VNum n, s2)
      end
  end
with elements (fuel : nat) (s : jsstring) (acc : list value)
  : option (value * jsstring) :=
  match fuel with
  | O => None
  | S fuel =>
      '(v, s1) ← element fuel s;
      match skip_ws s1 with
      | c :: s2 =>
          if c =? 44 then elements fuel s2 (v :: acc)
          else if c =? 93 then Some (VArr (rev (v :: acc)), s2)
          else None
      | [] => None
      end
  end
with members (fuel : nat) (s : jsstring) (acc : gmap (list N) value)
  : option (value * jsstring) :=
  match fuel with
  | O => None
  | S fuel =>
      match skip_ws s with
      | q :: s1 =>
          if q =? 34 then
            '(key, s2) ← chars s1;
            match skip_ws s2 with
            | c :: s3 =>
                if c =? 58 then
                  '(v, s4) ← element fuel s3;
                  match skip_ws s4 with
                  | c' :: s5 =>
                      if c' =? 44 then members fuel s5 (<[key:=v]> acc)
                      else if c' =? 125 then Some (VObj (<[key:=v]> acc), s5)
                      else None
                  | [] => None
                  end
                else None
            | [] => None
            end
          else None
      | [] => None
      end
  end.

(** [JSON.parse(text)]: [None] where it throws a [SyntaxError]. *)
Definition parse (text : jsstring) : option value :=
  '(v, rest) ← element (2 * length text + 2) text;
  match skip_ws rest with
  | [] => Some v
  | _ :: _ => None
  end.

End JSON.

End JS.

(* ===================================================================== *)
(** * server.js                                                           *)
(* ===================================================================== *)
Module Server.
Import JS.

(** A message of the prompt: [{role, content}]. *)
Record chat_message : Type :=
  ChatMessage { role : jsstring; content : jsstring }.

(** [buildPrompt(language, code)] *)
Definition buildPrompt (language code : jsstring) : list chat_message :=
  [ {| role := js "user";
       content :=
         js "You are an expert code analyzer. Your job: detect whether the provided code has an error, explain it, and provide corrected code. You must respond with ONLY valid JSON.

Language: " ++ language ++ js "

Code:

" ++ code ++ js "

Return ONLY JSON in this exact shape:
{
  `hasError`: boolean,
  `error`: {
    `type`: string,
    `reason`: string,
    `line`: number|null
  }|null,
  `correctedCode`: string|null
}

Rules:
- If there is no error, set hasError=false, error=null, correctedCode=null.
- If there is an error, set hasError=true and fill: type (e.g., SyntaxError/CompilationError/TypeError/etc), reason (clear explanation), and line (specific line number if possible).
- Provide correctedCode as the corrected full code.
- Be strict: respond with JSON only, no markdown, no extra keys.
- If multiple issues exist, report the most critical one and still provide a corrected version of the full code." |} ].

(** What the handler hands to [res.status(..).json(..)].  [body] is the
    JavaScript value given to [res.json], before Express serialises it. *)
Record response : Type := Response { status : Z; body : value }.

(** What [await fetch(..)] and the reading of the reply's body come to:
    a rejection (a network failure or a time-out, at either step), or a
    reply with its status and the text of its body. *)
Inductive fetch_outcome : Type :=
| Rejected (e : exn)
| Replied (upstream_status : Z) (text : jsstring).

(** A run of the handler: it answers at once, or it calls the model
    provider once and answers from what comes back. *)
Inductive program : Type :=
| Respond (r : response)
| Fetch (url : jsstring) (init : value) (k : fetch_outcome -> response).

Definition calls_model (p : program) : bool :=
  match p with
  | Respond _ => false
  | Fetch _ _ _ => true
  end.

(** [response.ok] *)
Definition ok (st : Z) : bool := ((200 <=? st) && (st <=? 299))%Z.

(** [res.json(b)], with the default status. *)
Definition res_json (b : value) : response := {| status := 200; body := b |}.

(** [data?.candidates?.[0]?.content?.parts?.[0]?.text] *)
Definition text_payload (data : value) : value :=
  get (get_index (get (get (get_index (get data "candidates") 0)
                           "content") "parts") 0) "text".

(** Lines 94-114: the reply of the model, once parsed, field by field. *)
Definition normalize (parsed : value) : response :=
  let hasError := truthy (get parsed "hasError") in
  let error := nullish (get parsed "error") VNull in
  let correctedCode := nullish (get parsed "correctedCode") VNull in
  if negb hasError then
    res_json (object [("hasError", VBool false); ("error", VNull);
                      ("correctedCode", VNull)])
  else if negb (truthy error) || negb (has_type error TObject) then
    res_json (object [("hasError", VBool true);
                      ("error", object [("type", VStr (js "UnknownError"));
                                        ("reason", VStr (js "Unknown"));
                                        ("line", VNull)]);
                      ("correctedCode", correctedCode)])
  else
    res_json (object
      [("hasError", VBool true);
       ("error", object
          [("type", if has_type (get error "type") TString
                    then get error "type" else VStr (js "UnknownError"));
           ("reason", if has_type (get error "reason") TString
                      then get error "reason" else VStr (js "Unknown"));
           ("line", if has_type (get error "line") TNumber
                    then get error "line" else VNull)]);
       ("correctedCode", if has_type correctedCode TString
                         then correctedCode else VNull)]).

(** ** The words of the specification *)

(** [v] when it is a string, the fallback otherwise. *)
Definition string_or (fallback : string) (v : value) : value :=
  match v with
  | VStr s => VStr s
  | _ => VStr (js fallback)
  end.

(** [v] when it is a string, [null] otherwise. *)
Definition string_or_null (v : value) : value :=
  match v with
  | VStr s => VStr s
  | _ => VNull
  end.

(** [v] when it is a number, [null] otherwise. *)
Definition number_or_null (v : value) : value :=
  match v with
  | VNum n => VNum n
  | _ => VNull
  end.

(** An object in the sense of [typeof]: an object or an array, and not
    [null]. *)
Definition is_object (v : value) : bool :=
  match v with
  | VArr _ | VObj _ => true
  | _ => false
  end.

(** A string with at least one code unit. *)
Definition non_empty_string (v : value) : bool :=
  match v with
  | VStr (_ :: _) => true
  | _ => false
  end.

(** The placeholder for an error without details. *)
Definition unknown_error : value :=
  object [("type", VStr (js "UnknownError")); ("reason", VStr (js "Unknown"));
          ("line", VNull)].

(** The handler answers [{error: msg}] with status [st] and does not call
    the model provider. *)
Definition rejects (p : program) (st : Z) (msg : string) : Prop :=
  p = Respond {| status := st; body := object [("error", VStr (js msg))] |}
  /\ calls_model p = false.

(** The canonical answer for code without an error. *)
Definition canonical_no_error : response :=
  res_json (object [("hasError", VBool false); ("error", VNull);
                    ("correctedCode", VNull)]).

Section Relay.

(** The built-ins of the host that the handler calls: [JSON.parse]
    ([None] where it throws), [JSON.stringify], the message of the
    [SyntaxError] that [response.json()] rejects with, and the
    [TypeError] raised by destructuring [undefined] or [null]. *)
Variable JSON_parse : jsstring -> option value.
Variable JSON_stringify : value -> value.
Variable SyntaxError_message : jsstring -> jsstring.
Variable cannot_destructure : value -> exn.

(** [const { .. } = v]: the value whose properties are read, unless [v]
    is [undefined] or [null]. *)
Definition destructure (v : value) : exn + value :=
  match v with
  | VUndefined | VNull => inl (cannot_destructure v)
  | _ => inr v
  end.

(** The [catch] of the handler. *)
Definition server_error (e : exn) : response :=
  {| status := 500;
     body := object [("error", VStr (js "Server error"));
                     ("details", VStr (message e))] |}.

(** Lines 56-114: everything after [await fetch(..)]. *)
Definition handle_reply (up : fetch_outcome) : response :=
  match up with
  | Rejected e => server_error e
  | Replied upstream_status text =>
      if negb (ok upstream_status) then
        if (upstream_status =? 429)%Z then
          {| status := 429;
             body := object
               [("error", VStr (js "Rate limit exceeded. Please wait a moment before trying again."));
                ("details", VStr (js "Free tier limit: 20 requests per day. Try again later or upgrade your plan."));
                ("isRateLimit", VBool true)] |}
        else
          {| status := 502;
             body := object [("error", VStr (js "Gemini request failed"));
                             ("details", VStr text)] |}
      else
        match JSON_parse text with
        | None => server_error (Error (SyntaxError_message text))
        | Some data =>
            let content := text_payload data in
            if negb (truthy content) || negb (has_type content TString) then
              {| status := 502;
                 body := object
                   [("error", VStr (js "Gemini returned empty response"));
                    ("details", JSON_stringify data)] |}
            else
              match JSON_parse (string_of content) with
              | None =>
                  {| status := 502;
                     body := object
                       [("error", VStr (js "Gemini returned non-JSON"));
                        ("details", content)] |}
              | Some parsed => normalize parsed
              end
        end
  end.

(** A reply that gets as far as the normalisation: a success status, a
    body that is JSON, in it a non-empty text, and the text JSON for
    [parsed]. *)
Definition parsed_reply (up : fetch_outcome) (parsed : value) : Prop :=
  exists upstream_status text data s,
    up = Replied upstream_status text /\ ok upstream_status = true /\
    JSON_parse text = Some data /\ text_payload data = VStr s /\
    s <> [] /\ JSON_parse s = Some parsed.

(** The body of the request to the model provider. *)
Definition generateContent_request (language code : jsstring) : value :=
  object
    [("contents",
      VArr (map (fun msg =>
                   object
                     [("role", VStr (if bool_decide (role msg = js "system")
                                     then js "user" else role msg));
                      ("parts", VArr [object [("text", VStr (content msg))]])])
                (buildPrompt language code)));
     ("generationConfig", object [("temperature", int 0)])].

(** [app.post('/api/analyze', ..)], from [process.env] and [req.body]. *)
Definition api_analyze (env : gmap (list N) jsstring) (req_body : value)
  : program :=
  match destructure (nullish req_body (object [])) with
  | inl e => Respond (server_error e)
  | inr fields =>
  let language := get fields "language" in
  let code := get fields "code" in
  if negb (truthy language) || negb (has_type language TString) then
    Respond {| status := 400;
               body := object [("error", VStr (js "Missing language"))] |}
  else if negb (truthy code) || negb (has_type code TString) then
    Respond {| status := 400;
               body := object [("error", VStr (js "Missing code"))] |}
  else
    let apiKey := env !! js "GEMINI_API_KEY" in
    if negb (truthy (from_option VStr VUndefined apiKey)) then
      Respond {| status := 500;
                 body := object
                   [("error", VStr (js "Server missing GEMINI_API_KEY"))] |}
    else
      let model :=
        string_of
          (or_else (from_option VStr VUndefined (env !! js "GEMINI_MODEL"))
                   (VStr (js "gemini-1.5-flash"))) in
      Fetch
        (js "https://generativelanguage.googleapis.com/v1/models/" ++ model
            ++ js ":generateContent?key=" ++ default [] apiKey)
        (object
           [("timeout", int 30000);
            ("method", VStr (js "POST"));
            ("headers",
             object [("Content-Type", VStr (js "application/json"))]);
            ("body", JSON_stringify
                       (generateContent_request (string_of language)
                                                (string_of code)))])
        handle_reply
  end.

(** The classes of upstream failure, as the specification words them,
    for a reply with status [st] and body [text]. *)
Definition classifies_as_stated (st : Z) (text : jsstring) : Prop :=
  let r := handle_reply (Replied st text) in
  (ok st = false -> st = 429%Z ->
   status r = 429%Z /\ get (body r) "isRateLimit" = VBool true)
  /\ (ok st = false -> st <> 429%Z ->
      status r = 502%Z /\
      get (body r) "error" = VStr (js "Gemini request failed"))
  /\ (ok st = true -> forall data,
      JSON_parse text = Some data ->
      (forall s, text_payload data <> VStr s) ->
      status r = 502%Z /\
      get (body r) "error" = VStr (js "Gemini returned empty response"))
  /\ (ok st = true -> forall data s,
      JSON_parse text = Some data ->
      text_payload data = VStr s ->
      JSON_parse s = None ->
      status r = 502%Z /\
      get (body r) "error" = VStr (js "Gemini returned non-JSON") /\
      get (body r) "details" = VStr s).

End Relay.

End Server.

(* ===================================================================== *)
(** * public/app.js                                                       *)
(* ===================================================================== *)
Module Client.
Import JS.

(** The page as the script sees it.  A text slot is the module variable
    [currentLanguage], or the [value], [textContent] or [innerHTML] of an
    element the script holds; a flag is the module variable
    [isSpeaking], the [disabled] of the trigger, or whether an element
    has the class the script toggles on it ([show], [hidden],
    [speaking]).  The timer by which [setStatus] later drops [show] is
    not part of the state. *)
Inductive text_slot : Type :=
| currentLanguage
| codeEl_value
| statusEl_textContent
| resultsContentEl_innerHTML
| fixedContentEl_textContent
| errorTypeEl_textContent
| errorReasonEl_textContent
| errorLineEl_textContent
| speakBtn_innerHTML.

Inductive flag_slot : Type :=
| isSpeaking
| analyzeBtn_disabled
| statusEl_show
| errorDetailsEl_hidden
| correctedCodeEl_hidden
| speakBtn_speaking.

#[global] Instance text_slot_eq_dec : EqDecision text_slot.
Proof. solve_decision. Defined.

#[global] Instance flag_slot_eq_dec : EqDecision flag_slot.
Proof. solve_decision. Defined.

Record page : Type := Page {
  texts : text_slot -> jsstring;
  flags : flag_slot -> bool
}.

Definition set_text (slot : text_slot) (v : jsstring) (st : page) : page :=
  {| texts := <[slot := v]> (texts st); flags := flags st |}.

Definition set_flag (slot : flag_slot) (v : bool) (st : page) : page :=
  {| texts := texts st; flags := <[slot := v]> (flags st) |}.

(** [escapeHtml(s)] on a string. *)
Definition escapeHtml_string (s : jsstring) : jsstring :=
  replaceAll (js "'") (js "&#039;")
    (replaceAll (js "`") (js "&quot;")
       (replaceAll (js ">") (js "&gt;")
          (replaceAll (js "<") (js "&lt;")
             (replaceAll (js "&") (js "&amp;") s)))).

(** The panel of [showNoError]. *)
Definition showNoError_html : jsstring :=
  js "
    <div class=`placeholder`>
      <div class=`placeholder-icon` style=`background: linear-gradient(135deg, #10b981, #22c55e);`>
        <i class=`fas fa-check`></i>
      </div>
      <h3>No Errors Found!</h3>
      <p>Your code looks great! No errors were detected.</p>
    </div>
  ".

(** The panel for a rate limit, around the escaped message and details. *)
Definition rate_limit_html (msg : jsstring) (details : jsstring) : jsstring :=
  js "
          <div class=`placeholder`>
            <div class=`placeholder-icon` style=`background: linear-gradient(135deg, #f59e0b, #d97706);`>
              <i class=`fas fa-clock`></i>
            </div>
            <h3>Rate Limit Exceeded</h3>
            <p>"
  ++ msg
  ++ js "</p>
            <p><strong>Details:</strong> "
  ++ details
  ++ js "</p>
          </div>
        ".

(** The panel for any other failure, around the escaped message. *)
Definition analysis_failed_html (msg : jsstring) : jsstring :=
  js "
          <div class=`placeholder`>
            <div class=`placeholder-icon` style=`background: linear-gradient(135deg, #ef4444, #dc2626);`>
              <i class=`fas fa-exclamation-triangle`></i>
            </div>
            <h3>Analysis Failed</h3>
            <p>"
  ++ msg
  ++ js "</p>
          </div>
        ".

(** The panel for a body of an unexpected shape. *)
Definition unexpected_response_html : jsstring :=
  js "
        <div class=`placeholder`>
          <div class=`placeholder-icon` style=`background: linear-gradient(135deg, #f59e0b, #d97706);`>
            <i class=`fas fa-question-circle`></i>
          </div>
          <h3>Unexpected Response</h3>
          <p>Received an unexpected response from the server.</p>
        </div>
      ".

(** The panel above the error details. *)
Definition errors_detected_html : jsstring :=
  js "
      <div class=`placeholder`>
        <div class=`placeholder-icon` style=`background: linear-gradient(135deg, #ef4444, #dc2626);`>
          <i class=`fas fa-bug`></i>
        </div>
        <h3>Errors Detected!</h3>
        <p>We found issues in your code. See the details below.</p>
      </div>
    ".

(** The panel of the [catch] block, around the escaped message. *)
Definition connection_error_html (msg : jsstring) : jsstring :=
  js "
      <div class=`placeholder`>
        <div class=`placeholder-icon` style=`background: linear-gradient(135deg, #ef4444, #dc2626);`>
          <i class=`fas fa-wifi`></i>
        </div>
        <h3>Connection Error</h3>
        <p>"
  ++ msg
  ++ js "</p>
      </div>
    ".

(** [statusEl.textContent = text; statusEl.classList.add('show')] *)
Definition setStatus (text : jsstring) (st : page) : page :=
  set_flag statusEl_show true (set_text statusEl_textContent text st).

(** [errorDetailsEl.classList.add('hidden');
     correctedCodeEl.classList.add('hidden')] *)
Definition hide_panels (st : page) : page :=
  set_flag correctedCodeEl_hidden true (set_flag errorDetailsEl_hidden true st).

Definition showNoError (st : page) : page :=
  hide_panels (set_text resultsContentEl_innerHTML showNoError_html st).

Definition stopSpeaking (st : page) : page :=
  set_text speakBtn_innerHTML
    (js "<i class=`fas fa-volume-up`></i> Listen to Explanation")
    (set_flag speakBtn_speaking false (set_flag isSpeaking false st)).

(** A statement: it changes the page and either completes or throws;
    what it changed before throwing stays changed. *)
Definition cmd : Type := page -> option exn * page.

Definition exec (f : page -> page) : cmd := fun st => (None, f st).

Definition and_then (c1 c2 : cmd) : cmd :=
  fun st =>
    match c1 st with
    | (None, st1) => c2 st1
    | (Some e, st1) => (Some e, st1)
    end.

Definition throw (e : exn) : cmd := fun st => (Some e, st).

(** Evaluate an expression that may throw, then go on with its value. *)
Definition eval {A : Type} (r : exn + A) (k : A -> cmd) : cmd :=
  fun st =>
    match r with
    | inl e => (Some e, st)
    | inr a => k a st
    end.

(** [try { body } catch (e) { handler } finally { final }] *)
Definition try_catch_finally (body : cmd) (handler : exn -> cmd) (final : cmd)
  : cmd :=
  fun st =>
    let '(thrown, st1) := body st in
    let '(rethrown, st2) :=
      match thrown with
      | Some e => handler e st1
      | None => (None, st1)
      end in
    let '(last, st3) := final st2 in
    (match last with Some e => Some e | None => rethrown end, st3).

Declare Scope cmd_scope.
Delimit Scope cmd_scope with cmd.
Bind Scope cmd_scope with cmd.
Notation "c1 ;; c2" := (and_then c1 c2%cmd)
  (at level 100, c2 at level 200, right associativity) : cmd_scope.
Local Open Scope cmd_scope.

(** What [await fetch('/api/analyze', ..)] comes to: a rejection, or a
    response with [resp.ok] and [data], which is the body read as JSON,
    or [null] where [resp.json()] rejects. *)
Inductive relay_outcome : Type :=
| NetworkError (e : exn)
| RelayResponse (ok : bool) (data : value).

(** A run of [analyze]: it returns at once, or it sends one request to
    the relay and goes on from what comes back. *)
Inductive program : Type :=
| Return (st : page)
| Fetch (request : value) (k : relay_outcome -> option exn * page).

Section Host.

(** What the host decides: the decimal spelling of a number, and the
    [TypeError]s it raises for a call of a method the receiver does not
    have and for an object with no primitive value. *)
Variable Number_toString : number -> jsstring.
Variable no_such_method : value -> string -> exn.
Variable no_primitive : value -> exn.

(** The conversion to a string done by template literals and by the
    [textContent] setter, on values that come out of [JSON.parse]: an
    array joins its items, an object answers [[object Object]] unless an
    own [toString] property hides the method it inherits. *)
Fixpoint ToString (v : value) : exn + jsstring :=
  match v with
  | VUndefined => inr (js "undefined")
  | VNull => inr (js "null")
  | VBool b => inr (js (if b then "true" else "false"))
  | VNum n => inr (Number_toString n)
  | VStr s => inr s
  | VArr items =>
      (fix join (l : list value) : exn + jsstring :=
         match l with
         | [] => inr []
         | x :: l' =>
             match (match x with
                    | VUndefined | VNull => inr []
                    | _ => ToString x
                    end), l' with
             | inl e, _ => inl e
             | inr s, [] => inr s
             | inr s, _ :: _ =>
                 match join l' with
                 | inl e => inl e
                 | inr rest => inr (s ++ js "," ++ rest)
                 end
             end
         end) items
  | VObj props =>
      match props !! js "toString" with
      | Some _ => inl (no_primitive v)
      | None => inr (js "[object Object]")
      end
  end.

(** [escapeHtml(s)]: only a string has [replaceAll]. *)
Definition escapeHtml (s : value) : exn + jsstring :=
  match s with
  | VStr str => inr (escapeHtml_string str)
  | _ => inl (no_such_method s "replaceAll")
  end.

(** [showErrorDetails(error)], for a truthy [error]. *)
Definition showErrorDetails (error : value) : cmd :=
  let type := get error "type" in
  let reason := get error "reason" in
  let line := get error "line" in
  eval (ToString (or_else type (VStr (js "UnknownError")))) (fun t =>
  exec (set_text errorTypeEl_textContent t) ;;
  eval (ToString (or_else reason (VStr (js "Unknown")))) (fun r =>
  exec (set_text errorReasonEl_textContent r) ;;
  eval (match line with
        | VNull | VUndefined => inr (js "Unknown")
        | _ => match ToString line with
               | inl e => inl e
               | inr l => inr (js "Line " ++ l)
               end
        end) (fun l =>
  exec (set_text errorLineEl_textContent l) ;;
  exec (set_flag errorDetailsEl_hidden false)))).

(** [code && code.trim()]: the value tested by [showCorrectedCode]. *)
Definition and_trim (code : value) : exn + value :=
  if truthy code then
    match code with
    | VStr s => inr (VStr (trim s))
    | _ => inl (no_such_method code "trim")
    end
  else inr code.

Definition showCorrectedCode (code : value) : cmd :=
  eval (and_trim code) (fun test =>
  if truthy test then
    exec (set_text fixedContentEl_textContent (string_of code)) ;;
    exec (set_flag correctedCodeEl_hidden false)
  else
    exec (set_flag correctedCodeEl_hidden true)).

(** The statements of the [try] block after the two [await]s. *)
Definition on_response (ok : bool) (data : value) : cmd :=
  if negb ok then
    let msg := or_else (get data "error") (VStr (js "Request failed")) in
    let details := or_else (get data "details") (VStr (js "")) in
    let isRateLimit := or_else (get data "isRateLimit") (VBool false) in
    (if truthy isRateLimit then
       eval (escapeHtml msg) (fun m =>
       eval (escapeHtml details) (fun d =>
       exec (set_text resultsContentEl_innerHTML (rate_limit_html m d))))
     else
       eval (escapeHtml msg) (fun m =>
       exec (set_text resultsContentEl_innerHTML (analysis_failed_html m)))) ;;
    exec hide_panels
  else if negb (truthy data) || negb (has_type (get data "hasError") TBoolean)
  then
    exec (set_text resultsContentEl_innerHTML unexpected_response_html) ;;
    exec hide_panels
  else if negb (truthy (get data "hasError")) then
    exec showNoError ;;
    exec (setStatus (js "Analysis complete - no errors found!"))
  else
    exec (set_text resultsContentEl_innerHTML errors_detected_html) ;;
    showErrorDetails
      (or_else (get data "error")
               (object [("type", VStr (js "UnknownError"));
                        ("reason", VStr (js "Unknown"));
                        ("line", VNull)])) ;;
    showCorrectedCode (get data "correctedCode") ;;
    exec (setStatus
            (js "Analysis complete - errors found and fixes provided!")).

(** The [catch] block. *)
Definition on_exception (e : exn) : cmd :=
  exec (set_text resultsContentEl_innerHTML
          (connection_error_html (escapeHtml_string (message e)))) ;;
  exec hide_panels ;;
  exec stopSpeaking.

(** [analyze()] *)
Definition analyze (st : page) : program :=
  let code := trim (texts st codeEl_value) in
  if negb (truthy (VStr code)) then
    Return (setStatus (js "Please write or paste some code first.") st)
  else
    let st1 :=
      setStatus (js "Analyzing your code...")
                (set_flag analyzeBtn_disabled true st) in
    Fetch (object [("language", VStr (texts st currentLanguage));
                   ("code", VStr code)])
          (fun out =>
             try_catch_finally
               (match out with
                | NetworkError e => throw e
                | RelayResponse ok data => on_response ok data
                end)
               on_exception
               (exec (set_flag analyzeBtn_disabled false))
               st1).

(** The page once the call has settled. *)
Definition settle (out : relay_outcome) (p : program) : page :=
  match p with
  | Return st => st
  | Fetch _ k => (k out).2
  end.

End Host.

(** ** The words of the specification *)

(** The HTML entity of a code unit that has one, the code unit itself
    otherwise. *)
Definition escape_unit (c : N) : jsstring :=
  if c =? 38 then js "&amp;"
  else if c =? 60 then js "&lt;"
  else if c =? 62 then js "&gt;"
  else if c =? 34 then js "&quot;"
  else if c =? 39 then js "&#039;"
  else [c].

Definition entities : list jsstring :=
  [js "&amp;"; js "&lt;"; js "&gt;"; js "&quot;"; js "&#039;"].

(** One of [&], [<], [>], the double quote and the single quote. *)
Definition is_special (c : N) : bool :=
  (c =? 38) || (c =? 60) || (c =? 62) || (c =? 34) || (c =? 39).

(** Text made of entities and of code units that are not special. *)
Inductive escaped : jsstring -> Prop :=
| escaped_nil : escaped []
| escaped_plain c s : is_special c = false -> escaped s -> escaped (c :: s)
| escaped_entity e s : e ∈ entities -> escaped s -> escaped (e ++ s).

(** Markup of one of the three failure panels, around escaped text. *)
Definition failure_markup (html : jsstring) : Prop :=
  (exists m d,
     html = rate_limit_html (escapeHtml_string m) (escapeHtml_string d))
  \/ (exists m, html = analysis_failed_html (escapeHtml_string m))
  \/ (exists m, html = connection_error_html (escapeHtml_string m)).

(** An error detail as the relay sends it: string [type] and [reason],
    and a [line] that is a number or [null]. *)
Definition error_detail (e : value) : Prop :=
  (exists t, get e "type" = VStr t) /\
  (exists r, get e "reason" = VStr r) /\
  (get e "line" = VNull \/ exists n, get e "line" = VNum n).

(** A string that is not empty once trimmed. *)
Definition non_blank_string (v : value) : bool :=
  match v with
  | VStr s => match trim s with [] => false | _ :: _ => true end
  | _ => false
  end.

End Client.


(* ===================================================================== *)
(** * public/app.js: the rest of the page                                 *)
(* ===================================================================== *)
Module Page.
Import JS Client.

(** ** Built-ins *)

(** [s.split(sep)] for a separator of one code unit. *)
Fixpoint split (sep : N) (s : jsstring) : list jsstring :=
  match s with
  | [] => [[]]
  | c :: s' =>
      if c =? sep then [] :: split sep s'
      else match split sep s' with
           | piece :: rest => (c :: piece) :: rest
           | [] => [[c]]
           end
  end.

(** [pieces.join(sep)] on strings. *)
Fixpoint join (sep : jsstring) (pieces : list jsstring) : jsstring :=
  match pieces with
  | [] => []
  | piece :: rest =>
      match rest with
      | [] => piece
      | _ :: _ => piece ++ sep ++ join sep rest
      end
  end.

(** The string of a positive integer far below [2^53], as [join] and a
    template literal spell it: its decimal digits. *)
Definition decimal (n : nat) : jsstring := index_key n.

(** [s.includes(sub)] *)
Fixpoint includes (sub s : jsstring) : bool :=
  starts_with sub s ||
  match s with
  | [] => false
  | _ :: s' => includes sub s'
  end.

(** ** The page beyond the panels *)

(** A language button: its [data-lang] and whether it has the class
    [active]. *)
Record lang_button : Type :=
  LangButton { dataset_lang : jsstring; active : bool }.

(** The page of [Client], the language buttons, the label of the
    current language and the gutter of line numbers. *)
Record document : Type := Document {
  page_of : page;
  langButtons : list lang_button;
  currentLangEl_textContent : jsstring;
  lineNumbersEl_innerHTML : jsstring
}.

Definition on_page (f : page -> page) (doc : document) : document :=
  {| page_of := f (page_of doc);
     langButtons := langButtons doc;
     currentLangEl_textContent := currentLangEl_textContent doc;
     lineNumbersEl_innerHTML := lineNumbersEl_innerHTML doc |}.

(** The object literal [displayNames]. *)
Definition displayNames : gmap (list N) jsstring :=
  list_to_map [(js "python", js "Python"); (js "javascript", js "JavaScript");
               (js "java", js "Java"); (js "c", js "C")].

(** The gutter for [lineCount] lines:
    [Array.from({ length: lineCount }, (_, i) => i + 1).join('\n')]. *)
Definition line_numbers (lineCount : nat) : jsstring :=
  join [10] (map (fun i => decimal (i + 1)) (seq 0 lineCount)).

Definition updateLineNumbers (doc : document) : document :=
  let lineCount := length (split 10 (texts (page_of doc) codeEl_value)) in
  {| page_of := page_of doc;
     langButtons := langButtons doc;
     currentLangEl_textContent := currentLangEl_textContent doc;
     lineNumbersEl_innerHTML := line_numbers lineCount |}.

(** The placeholder of [hideResults]. *)
Definition hideResults_html : jsstring :=
  js "
    <div class=`placeholder`>
      <div class=`placeholder-icon`>
        <i class=`fas fa-code`></i>
      </div>
      <h3>Ready to Help!</h3>
      <p>Write or paste your code, then click 'Analyze Code' to find errors and get helpful explanations.</p>
    </div>
  ".

Definition hideResults (st : page) : page :=
  hide_panels (set_text resultsContentEl_innerHTML hideResults_html st).

(** [reset()] *)
Definition reset (doc : document) : document :=
  on_page stopSpeaking
    (on_page (setStatus (js ""))
       (updateLineNumbers
          (on_page hideResults
             (on_page (set_text codeEl_value (js "")) doc)))).

(** ** Speech *)

(** What the script reads of a [SpeechSynthesisVoice]. *)
Record voice : Type := Voice { voice_lang : jsstring; voice_name : jsstring }.

(** The utterance handed to [speechSynthesis.speak]: its text and the
    voice set on it, if any. *)
Record utterance : Type :=
  Utterance { utterance_text : jsstring; utterance_voice : option voice }.

(** [voices.find(v => v.lang.includes('en') && v.name.includes('Google'))
     || voices[0]] *)
Definition preferredVoice (voices : list voice) : option voice :=
  match List.find (fun v => includes (js "en") (voice_lang v)
                            && includes (js "Google") (voice_name v)) voices with
  | Some v => Some v
  | None => head voices
  end.

(** [speakError()]: the utterance it speaks, or nothing where it
    returns before. *)
Definition speakError (voices : list voice) (st : page) : option utterance :=
  let type := texts st errorTypeEl_textContent in
  let reason := texts st errorReasonEl_textContent in
  let line := texts st errorLineEl_textContent in
  if negb (truthy (VStr type)) || negb (truthy (VStr reason)) then None
  else
    Some {| utterance_text :=
              js "Error detected. " ++ type ++ js ". " ++ reason ++ js ". "
              ++ (if bool_decide (line <> js "Unknown")
                  then js "on " ++ line else js "");
            utterance_voice := preferredVoice voices |}.

(** [utterance.onstart] *)
Definition utterance_onstart (st : page) : page :=
  set_text speakBtn_innerHTML (js "<i class=`fas fa-stop`></i> Stop Speaking")
    (set_flag speakBtn_speaking true (set_flag isSpeaking true st)).

(** [utterance.onend] *)
Definition utterance_onend (st : page) : page := stopSpeaking st.

(** A call of the synthesizer. *)
Inductive speech_call : Type :=
| Cancel
| Speak (u : utterance).

(** [toggleSpeech()]: the page after it and the calls it makes. *)
Definition toggleSpeech (voices : list voice) (st : page)
  : page * list speech_call :=
  if flags st isSpeaking then (stopSpeaking st, [Cancel])
  else (st, match speakError voices st with
            | Some u => [Speak u]
            | None => []
            end).

(** ** The clipboard *)

(** A run of [copyCorrectedCode]: it returns at once, or it writes
    [text] to the clipboard and goes on from whether that succeeded. *)
Inductive copy_program : Type :=
| NoCopy
| WriteText (text : jsstring) (k : bool -> page -> page).

Definition copyCorrectedCode (st : page) : copy_program :=
  let text :=
    string_of (or_else (VStr (texts st fixedContentEl_textContent))
                       (VStr (js ""))) in
  if negb (truthy (VStr text)) then NoCopy
  else WriteText text
         (fun succeeded =>
            if succeeded then setStatus (js "Code copied to clipboard!")
            else setStatus (js "Failed to copy code")).

(** ** [analyze], resumed on the page as it then is *)

(** The page as [analyze] leaves it when it calls the relay. *)
Definition started (st : page) : page :=
  setStatus (js "Analyzing your code...") (set_flag analyzeBtn_disabled true st).

Section Host.

Variable Number_toString : number -> jsstring.
Variable no_such_method : value -> string -> exn.
Variable no_primitive : value -> exn.

(** The text of [displayNames[lang]] for a [lang] that is none of its
    four keys: what the host spells for a property that [Object.prototype]
    has under that name, and the empty text otherwise. *)
Variable inherited_text : jsstring -> jsstring.

(** The voices of the host. *)
Variable voices : list voice.

(** [selectLanguage(lang)] *)
Definition selectLanguage (lang : jsstring) (doc : document) : document :=
  {| page_of := set_text currentLanguage lang (page_of doc);
     langButtons :=
       map (fun btn =>
              {| dataset_lang := dataset_lang btn;
                 active := bool_decide (dataset_lang btn = lang) |})
           (langButtons doc);
     currentLangEl_textContent :=
       default (inherited_text lang) (displayNames !! lang);
     lineNumbersEl_innerHTML := lineNumbersEl_innerHTML doc |}.

(** What [analyze] does once the relay call has settled on [out]: the
    [try] block after the [await]s, the [catch] and the [finally]. *)
Definition resume (out : relay_outcome) : cmd :=
  try_catch_finally
    (match out with
     | NetworkError e => throw e
     | RelayResponse ok data =>
         on_response Number_toString no_such_method no_primitive ok data
     end)
    on_exception
    (exec (set_flag analyzeBtn_disabled false)).

(** ** The page as a transition system *)

(** The document, the relay calls and the clipboard writes that have
    not settled yet. *)
Record session : Type := Session {
  doc : document;
  in_flight : nat;
  copying : nat
}.

(** What happens to the page.  A click on the trigger while it is
    disabled is no event; [Settled] and [CopySettled] only follow a call
    that has not settled. *)
Inductive event : Type :=
| LoadEvent
| LangClick (lang : jsstring)
| InputEvent (value : jsstring)
| AnalyzeClick
| Settled (out : relay_outcome)
| ResetClick
| CopyClick
| CopySettled (succeeded : bool)
| SpeakClick
| SpeechStart
| SpeechEnd.

Definition step (a : session) (ev : event) : session :=
  match ev with
  | LoadEvent =>
      {| doc := updateLineNumbers (doc a);
         in_flight := in_flight a; copying := copying a |}
  | LangClick lang =>
      {| doc := selectLanguage lang (doc a);
         in_flight := in_flight a; copying := copying a |}
  | InputEvent value =>
      {| doc := updateLineNumbers
                  (on_page (set_text codeEl_value value) (doc a));
         in_flight := in_flight a; copying := copying a |}
  | AnalyzeClick =>
      if flags (page_of (doc a)) analyzeBtn_disabled then a
      else
        match analyze Number_toString no_such_method no_primitive
                      (page_of (doc a)) with
        | Return st =>
            {| doc := on_page (fun _ => st) (doc a);
               in_flight := in_flight a; copying := copying a |}
        | Fetch _ _ =>
            {| doc := on_page started (doc a);
               in_flight := S (in_flight a); copying := copying a |}
        end
  | Settled out =>
      match in_flight a with
      | O => a
      | S n =>
          {| doc := on_page (fun st => (resume out st).2) (doc a);
             in_flight := n; copying := copying a |}
      end
  | ResetClick =>
      {| doc := reset (doc a);
         in_flight := in_flight a; copying := copying a |}
  | CopyClick =>
      match copyCorrectedCode (page_of (doc a)) with
      | NoCopy => a
      | WriteText _ _ =>
          {| doc := doc a;
             in_flight := in_flight a; copying := S (copying a) |}
      end
  | CopySettled succeeded =>
      match copying a with
      | O => a
      | S n =>
          {| doc := on_page
                      (if succeeded
                       then setStatus (js "Code copied to clipboard!")
                       else setStatus (js "Failed to copy code"))
                      (doc a);
             in_flight := in_flight a; copying := n |}
      end
  | SpeakClick =>
      {| doc := on_page (fun st => (toggleSpeech voices st).1) (doc a);
         in_flight := in_flight a; copying := copying a |}
  | SpeechStart =>
      {| doc := on_page utterance_onstart (doc a);
         in_flight := in_flight a; copying := copying a |}
  | SpeechEnd =>
      {| doc := on_page utterance_onend (doc a);
         in_flight := in_flight a; copying := copying a |}
  end.

(** The page after a sequence of events. *)
Definition run (a : session) (evs : list event) : session :=
  fold_left step evs a.

(** ** The words of the properties over time *)

(** The buttons that are [active] are those of the current language,
    and the label names it. *)
Definition language_shown (d : document) : Prop :=
  let lang := texts (page_of d) currentLanguage in
  Forall (fun btn => active btn = bool_decide (dataset_lang btn = lang))
         (langButtons d)
  /\ currentLangEl_textContent d
     = default (inherited_text lang) (displayNames !! lang).

End Host.

(** The language of the last click on a language button among [evs],
    and [lang] when there is none. *)
Definition last_click (lang : jsstring) (evs : list event) : jsstring :=
  fold_left (fun l ev => match ev with LangClick l' => l' | _ => l end)
            evs lang.

(** The trigger is disabled exactly while one relay call has not
    settled, and there is no second one. *)
Definition flight_matches (a : session) : Prop :=
  in_flight a
  = if flags (page_of (doc a)) analyzeBtn_disabled then 1%nat else 0%nat.

(** The gutter numbers the lines of the code in the editor. *)
Definition gutter_matches (d : document) : Prop :=
  lineNumbersEl_innerHTML d
  = line_numbers (length (split 10 (texts (page_of d) codeEl_value))).

(** The stop and the listen look of the speak button go with
    [isSpeaking]. *)
Definition speak_button_matches (st : page) : Prop :=
  flags st speakBtn_speaking = flags st isSpeaking
  /\ texts st speakBtn_innerHTML =
       if flags st isSpeaking
       then js "<i class=`fas fa-stop`></i> Stop Speaking"
       else js "<i class=`fas fa-volume-up`></i> Listen to Explanation".

(** No code unit of [s] has an entity. *)
Definition no_special (s : jsstring) : Prop :=
  forall c, c ∈ s -> is_special c = false.

(** Whether it completes or throws, the statement [c] leaves a page on
    which [P] holds if it starts on one. *)
Definition preserves (P : page -> Prop) (c : cmd) : Prop :=
  forall st, P st -> P (c st).2.

(** What no statement of the [try] block of [analyze] writes: the code
    in the editor, the selected language, and the state of the speak
    button. *)
Inductive untouched : (page -> Prop) -> Prop :=
| untouched_code code :
    untouched (fun st => texts st codeEl_value = code)
| untouched_language lang :
    untouched (fun st => texts st currentLanguage = lang)
| untouched_speaking b :
    untouched (fun st => flags st isSpeaking = b)
| untouched_speak_class b :
    untouched (fun st => flags st speakBtn_speaking = b)
| untouched_speak_label label :
    untouched (fun st => texts st speakBtn_innerHTML = label).

End Page.

(* ===================================================================== *)
(** * Between the page and the relay                                      *)
(* ===================================================================== *)
Module Exchange.
Import JS.

(** A number as [JSON.stringify] writes it and [JSON.parse] reads it
    back: a zero loses its sign, and what is not finite becomes [null]. *)
Definition wire_number (n : number) : value :=
  match n with
  | S754_zero _ => VNum (S754_zero false)
  | S754_finite s m e => VNum (S754_finite s m e)
  | S754_infinity _ | S754_nan => VNull
  end.

(** A value after [JSON.stringify] on one side and [JSON.parse] on the
    other ([res.json] and [resp.json()], or the [body] of [fetch] and
    [express.json]): [None] for [undefined], which is not sent; a
    property that is [undefined] is left out, and [undefined] in an
    array becomes [null]. *)
Fixpoint wire (v : value) : option value :=
  match v with
  | VUndefined => None
  | VNull => Some VNull
  | VBool b => Some (VBool b)
  | VNum n => Some (wire_number n)
  | VStr s => Some (VStr s)
  | VArr items => Some (VArr (map (fun x => default VNull (wire x)) items))
  | VObj props => Some (VObj (omap wire props))
  end.

(** The answer of a run of the handler when the provider's side of it
    comes to [up]. *)
Definition answer (p : Server.program) (up : Server.fetch_outcome)
  : Server.response :=
  match p with
  | Server.Respond r => r
  | Server.Fetch _ _ k => k up
  end.

(** What the page's [fetch] comes to when the relay answers [r]. *)
Definition received (r : Server.response) : Client.relay_outcome :=
  Client.RelayResponse (Server.ok (Server.status r))
                       (default VNull (wire (Server.body r))).


(** ** The words of the properties *)

(** What the page shows for a field that the relay passes on when it is
    a string and replaces by [fallback] otherwise, the page showing
    [fallback] for the empty string. *)
Definition text_or (fallback : string) (v : value) : jsstring :=
  match v with
  | VStr (c :: s) => c :: s
  | _ => js fallback
  end.

(** What [showErrorDetails] shows for the line [v] it is given. *)
Definition line_label (Number_toString : number -> jsstring) (v : value)
  : jsstring :=
  match v with
  | VNum n => js "Line " ++ Number_toString n
  | _ => js "Unknown"
  end.

(** What the page shows for the line [v] of the model's reply: the
    relay passes a number on, and it arrives as [null] unless it is
    finite. *)
Definition line_text (Number_toString : number -> jsstring) (v : value)
  : jsstring :=
  match v with
  | VNum n => line_label Number_toString (wire_number n)
  | _ => js "Unknown"
  end.

(** The messages of the relay for a failure that is no rate limit. *)
Definition failure_messages : list jsstring :=
  [js "Gemini request failed"; js "Gemini returned empty response";
   js "Gemini returned non-JSON"; js "Server error"].

End Exchange.
(* ===================================================================== *)
(** * Concrete runs                                                       *)
(* ===================================================================== *)
Module Runs.
Import JS.

(** The theorems below hold for every host.  The concrete runs take
    [JSON.parse] as modelled above and fix the other built-ins to
    constants: no run reaches [JSON.stringify] or an exception of
    [response.json()] in a way that shows in its statement, and the only
    number a run spells is the line number 1. *)
Definition host_stringify : value -> value := fun _ => VUndefined.
Definition host_syntax_message : jsstring -> jsstring := fun _ => js "SyntaxError".
Definition host_type_error : value -> exn := fun _ => Error (js "TypeError").

Definition handle_reply : Server.fetch_outcome -> Server.response :=
  Server.handle_reply JSON.parse host_stringify host_syntax_message.

Definition api_analyze : gmap (list N) jsstring -> value -> Server.program :=
  Server.api_analyze JSON.parse host_stringify host_syntax_message host_type_error.

(** A reply of the provider that reports no error and still carries an
    [error] and a [correctedCode]; [parsed_no_error] is its text,
    parsed. *)
Definition reply_no_error : Server.fetch_outcome :=
  Server.Replied 200
    (js "{`candidates`:[{`content`:{`parts`:[{`text`:`{\`hasError\`:false,\`error\`:\`none\`,\`correctedCode\`:\`x = 1\`}`}]}}]}").

Definition parsed_no_error : value :=
  object [("hasError", VBool false); ("error", VStr (js "none"));
          ("correctedCode", VStr (js "x = 1"))].

(** A reply that reports an error, has no [error] field and has the
    number 5 for [correctedCode]. *)
Definition reply_number_code : Server.fetch_outcome :=
  Server.Replied 200
    (js "{`candidates`:[{`content`:{`parts`:[{`text`:`{\`hasError\`:true,\`correctedCode\`:5}`}]}}]}").

(** A reply that reports a [SyntaxError] at line 1, with a number where
    the [reason] should be, and corrected code. *)
Definition reply_syntax_error_text : jsstring :=
  js "{`candidates`:[{`content`:{`parts`:[{`text`:`{\`hasError\`:true,\`error\`:{\`type\`:\`SyntaxError\`,\`reason\`:7,\`line\`:1},\`correctedCode\`:\`print('hi')\`}`}]}}]}".

Definition reply_syntax_error : Server.fetch_outcome :=
  Server.Replied 200 reply_syntax_error_text.

(** The same text in another envelope, with another success status. *)
Definition reply_syntax_error' : Server.fetch_outcome :=
  Server.Replied 201
    (js "{`modelVersion`:`x`, `candidates`:[{`content`:{`parts`:[{`text`:`{\`hasError\`:true,\`error\`:{\`type\`:\`SyntaxError\`,\`reason\`:7,\`line\`:1},\`correctedCode\`:\`print('hi')\`}`}], `role`:`model`}}]}").

Definition parsed_syntax_error : value :=
  object [("hasError", VBool true);
          ("error", object [("type", VStr (js "SyntaxError"));
                            ("reason", int 7); ("line", int 1)]);
          ("correctedCode", VStr (js "print('hi')"))].

(** A success reply whose text is the empty string. *)
Definition reply_empty_text : jsstring :=
  js "{`candidates`:[{`content`:{`parts`:[{`text`:``}]}}]}".

Definition parsed_empty_text : value :=
  object [("candidates",
           VArr [object [("content",
                          object [("parts",
                                   VArr [object [("text", VStr [])]])])]])].

(** A success reply whose text is [not json]. *)
Definition reply_not_json : jsstring :=
  js "{`candidates`:[{`content`:{`parts`:[{`text`:`not json`}]}}]}".

Definition parsed_not_json : value :=
  object [("candidates",
           VArr [object [("content",
                          object [("parts",
                                   VArr [object [("text",
                                                  VStr (js "not json"))]])])]])].

(** Requests and environments. *)
Definition env_with_key : gmap (list N) jsstring :=
  {[ js "GEMINI_API_KEY" := js "k" ]}.

Definition env_with_model : gmap (list N) jsstring :=
  {[ js "GEMINI_API_KEY" := js "k2"; js "GEMINI_MODEL" := js "gemini-pro" ]}.

Definition request_java : value :=
  object [("language", VStr (js "java")); ("code", VStr (js "int x = ;"))].

Definition request_python : value :=
  object [("language", VStr (js "python")); ("code", VStr (js "print('hi'"))].

Definition request_no_code : value :=
  object [("language", VStr (js "python")); ("code", VStr (js ""))].

Definition request_no_language : value :=
  object [("code", VStr (js "print('hi'"))].

(** The page: code in the editor, and the panels of an earlier run
    still shown. *)
Definition page_with_code : Client.page :=
  {| Client.texts := fun slot =>
       match slot with
       | Client.currentLanguage => js "python"
       | Client.codeEl_value => js "print('hi'"
       | Client.fixedContentEl_textContent => js "old"
       | _ => []
       end;
     Client.flags := fun slot =>
       match slot with
       | Client.isSpeaking | Client.speakBtn_speaking => true
       | _ => false
       end |}.

Definition host_number_toString : number -> jsstring := fun _ => js "1".
Definition host_no_method : value -> string -> exn :=
  fun _ _ => Error (js "TypeError").

Definition analyze : Client.page -> Client.program :=
  Client.analyze host_number_toString host_no_method host_type_error.

(** The page after [analyze] on [page_with_code] has settled on [out]. *)
Definition settle (out : Client.relay_outcome) : Client.page :=
  Client.settle out (analyze page_with_code).

Definition found_error : value :=
  object [("hasError", VBool true);
          ("error", object [("type", VStr (js "SyntaxError"));
                            ("reason", VStr (js "missing )"));
                            ("line", int 1)]);
          ("correctedCode", VStr (js "print('hi')"))].

Definition blank_code : value :=
  object [("hasError", VBool true);
          ("error", object [("type", VStr (js "SyntaxError"));
                            ("reason", VStr (js "missing )"));
                            ("line", VNull)]);
          ("correctedCode", VStr (js "  "))].

Definition number_code : value :=
  object [("hasError", VBool true);
          ("error", object [("type", VStr (js "UnknownError"));
                            ("reason", VStr (js "Unknown"));
                            ("line", VNull)]);
          ("correctedCode", int 5)].

Definition relay_number_code : Client.relay_outcome :=
  Client.RelayResponse true number_code.

Definition relay_found_error : Client.relay_outcome :=
  Client.RelayResponse true found_error.

Definition relay_blank_code : Client.relay_outcome :=
  Client.RelayResponse true blank_code.

Definition relay_rate_limited : Client.relay_outcome :=
  Client.RelayResponse false
    (object [("error", VStr (js "Rate limit exceeded. Please wait a moment before trying again."));
             ("details", VStr (js "Free tier limit: 20 requests per day. Try again later or upgrade your plan."));
             ("isRateLimit", VBool true)]).

Definition relay_unreachable : Client.relay_outcome :=
  Client.NetworkError (Error (js "Failed to fetch")).

(** A reply that reports the missing parenthesis of [print('hi']. *)
Definition reply_missing_paren : Server.fetch_outcome :=
  Server.Replied 200
    (js "{`candidates`:[{`content`:{`parts`:[{`text`:`{\`hasError\`:true,\`error\`:{\`type\`:\`SyntaxError\`,\`reason\`:\`missing closing parenthesis\`,\`line\`:1},\`correctedCode\`:\`print('hi')\`}`}]}}]}").

(** A reply whose text is just [hasError] false. *)
Definition reply_clean : Server.fetch_outcome :=
  Server.Replied 200
    (js "{`candidates`:[{`content`:{`parts`:[{`text`:`{\`hasError\`:false}`}]}}]}").

(** The page after [analyze] on [page_with_code], when the relay got
    [up] from the provider and the page reads the relay's body as
    sent. *)
Definition page_after (up : Server.fetch_outcome) : Client.page :=
  settle (Client.RelayResponse (Server.ok (Server.status (handle_reply up)))
                               (Server.body (handle_reply up))).

End Runs.


(* ===================================================================== *)
(** * A visit of the page                                                 *)
(* ===================================================================== *)
Module Visits.
Import JS Client Page.

(** A host whose [Object.prototype] shows nothing under the names used
    here, with a French voice before an English Google voice. *)
Definition host_inherited_text : jsstring -> jsstring := fun _ => [].

Definition voices : list voice :=
  [ {| voice_lang := js "fr-FR"; voice_name := js "Amelie" |};
    {| voice_lang := js "en-US"; voice_name := js "Google US English" |} ].

Definition buttons : list lang_button :=
  [ {| dataset_lang := js "python"; active := true |};
    {| dataset_lang := js "javascript"; active := false |};
    {| dataset_lang := js "java"; active := false |};
    {| dataset_lang := js "c"; active := false |} ].

(** The page as it is served: Python selected, an empty editor, the
    panels hidden and the speak button in its listen look. *)
Definition loaded_page : page :=
  {| texts := fun slot =>
       match slot with
       | currentLanguage => js "python"
       | speakBtn_innerHTML =>
           js "<i class=`fas fa-volume-up`></i> Listen to Explanation"
       | _ => []
       end;
     flags := fun slot =>
       match slot with
       | errorDetailsEl_hidden | correctedCodeEl_hidden => true
       | _ => false
       end |}.

Definition opened : session :=
  {| doc := {| page_of := loaded_page;
               langButtons := buttons;
               currentLangEl_textContent := js "Python";
               lineNumbersEl_innerHTML := js "1" |};
     in_flight := 0;
     copying := 0 |}.

Definition run : session -> list event -> session :=
  Page.run Runs.host_number_toString Runs.host_no_method Runs.host_type_error
           host_inherited_text voices.

Definition resume : relay_outcome -> cmd :=
  Page.resume Runs.host_number_toString Runs.host_no_method
              Runs.host_type_error.

(** The served page once the relay has answered what it makes of the
    provider's [up], the answer read as it was sent. *)
Definition page_after (up : Server.fetch_outcome) : page :=
  (resume (Exchange.received (Runs.handle_reply up)) loaded_page).2.

(** The user picks Java, types two lines and asks for an analysis. *)
Definition asking : list event :=
  [LoadEvent; LangClick (js "java");
   InputEvent (js "System.out.println(1)
"); AnalyzeClick; AnalyzeClick].

(** The same, and then: a reset while the call is in flight, the answer,
    the speech, a copy, new code and a call that fails. *)
Definition visit : list event :=
  asking ++
  [ResetClick; Settled Runs.relay_found_error; SpeakClick; SpeechStart;
   CopyClick; CopySettled true; SpeakClick; SpeechEnd;
   InputEvent (js "x = 1"); LangClick (js "python"); AnalyzeClick;
   Settled Runs.relay_unreachable].

End Visits.
(* ===================================================================== *)
(** * Properties of the relay                                             *)
(* ===================================================================== *)
Module ServerFacts.
Import JS Server.

Section Relay.

Variable JSON_parse : jsstring -> option value.
Variable JSON_stringify : value -> value.
Variable SyntaxError_message : jsstring -> jsstring.
Variable cannot_destructure : value -> exn.

Local Abbreviation handle_reply :=
  (handle_reply JSON_parse JSON_stringify SyntaxError_message).
Local Abbreviation api_analyze :=
  (api_analyze JSON_parse JSON_stringify SyntaxError_message
               cannot_destructure).
Local Abbreviation parsed_reply := (parsed_reply JSON_parse).
Local Abbreviation classifies_as_stated :=
  (classifies_as_stated JSON_parse JSON_stringify SyntaxError_message).

(** A reply whose text parses is answered by [normalize]. *)
Lemma handle_reply_parsed up parsed :
  parsed_reply up parsed -> handle_reply up = normalize parsed.
Proof.
  intros (st & text & data & s & -> & Hok & Hdata & Hpay & Hs & Hparsed).
  unfold Server.handle_reply. rewrite Hok, Hdata, Hpay. cbn.
  destruct s as [|c s]; [done|]. cbn. by rewrite Hparsed.
Qed.

(** The handler reaches the provider only through [handle_reply]. *)
Lemma api_analyze_continuation env req url init k :
  api_analyze env req = Fetch url init k -> k = handle_reply.
Proof.
  unfold Server.api_analyze. intros H.
  repeat (match type of H with
          | context [match ?x with _ => _ end] => destruct x
          end; try discriminate).
  by injection H.
Qed.

Lemma normalize_no_error parsed :
  truthy (get parsed "hasError") = false ->
  normalize parsed = canonical_no_error.
Proof. unfold normalize. by intros ->. Qed.

Lemma has_type_string_or fallback v :
  (if has_type v TString then v else VStr (js fallback)) = string_or fallback v.
Proof. by destruct v. Qed.

Lemma has_type_string_or_null v :
  (if has_type (nullish v VNull) TString then nullish v VNull else VNull)
  = string_or_null v.
Proof. by destruct v. Qed.

Lemma has_type_number_or_null v :
  (if has_type v TNumber then v else VNull) = number_or_null v.
Proof. by destruct v. Qed.

Lemma error_guard v :
  negb (truthy (nullish v VNull)) || negb (has_type (nullish v VNull) TObject)
  = negb (is_object v).
Proof. destruct v as [| |[]|[]|[]| |]; reflexivity. Qed.

Lemma nullish_object v : is_object v = true -> nullish v VNull = v.
Proof. by destruct v. Qed.

(** With a truthy [hasError] and an [error] that is no object, the
    placeholder is sent and [correctedCode] goes out as it came, [null]
    standing for a missing one. *)
Lemma normalize_placeholder parsed :
  truthy (get parsed "hasError") = true ->
  is_object (get parsed "error") = false ->
  normalize parsed =
    res_json (object [("hasError", VBool true); ("error", unknown_error);
                      ("correctedCode",
                       nullish (get parsed "correctedCode") VNull)]).
Proof.
  intros Htrue Herr. unfold normalize.
  by rewrite Htrue, error_guard, Herr.
Qed.

Lemma normalize_error_object parsed :
  truthy (get parsed "hasError") = true ->
  is_object (get parsed "error") = true ->
  normalize parsed =
    res_json (object
      [("hasError", VBool true);
       ("error", object
          [("type", string_or "UnknownError" (get (get parsed "error") "type"));
           ("reason", string_or "Unknown" (get (get parsed "error") "reason"));
           ("line", number_or_null (get (get parsed "error") "line"))]);
       ("correctedCode", string_or_null (get parsed "correctedCode"))]).
Proof.
  intros Htrue Herr. unfold normalize.
  rewrite Htrue, error_guard, Herr, (nullish_object _ Herr). cbn [negb].
  by rewrite has_type_string_or_null, !has_type_string_or,
    has_type_number_or_null.
Qed.

(** C1: when the parsed reply's [hasError] is not truthy, the relay
    answers 200 with exactly [{hasError:false, error:null,
    correctedCode:null}], whatever else the reply holds. *)
Theorem C1_no_error_canonical up parsed :
  parsed_reply up parsed ->
  truthy (get parsed "hasError") = false ->
  handle_reply up =
    {| status := 200;
       body := object [("hasError", VBool false); ("error", VNull);
                       ("correctedCode", VNull)] |}.
Proof.
  intros Hup Hfalse. rewrite (handle_reply_parsed _ _ Hup).
  by apply normalize_no_error.
Qed.

(** C3: with a truthy [hasError] and an [error] that is an object, the
    relay answers 200 with [error.type] and [error.reason] the reply's
    when they are strings and the fallbacks otherwise, [error.line] the
    reply's when it is a number and [null] otherwise, and
    [correctedCode] the reply's when it is a string and [null]
    otherwise. *)
Theorem C3_error_object_coerced up parsed :
  parsed_reply up parsed ->
  truthy (get parsed "hasError") = true ->
  is_object (get parsed "error") = true ->
  handle_reply up =
    {| status := 200;
       body := object
         [("hasError", VBool true);
          ("error", object
             [("type",
               string_or "UnknownError" (get (get parsed "error") "type"));
              ("reason",
               string_or "Unknown" (get (get parsed "error") "reason"));
              ("line", number_or_null (get (get parsed "error") "line"))]);
          ("correctedCode", string_or_null (get parsed "correctedCode"))] |}.
Proof.
  intros Hup Htrue Hobj. rewrite (handle_reply_parsed _ _ Hup).
  by apply normalize_error_object.
Qed.

(** C6: the answer to a parsed reply depends on the parsed reply alone:
    two calls of the handler, whatever their requests, environments and
    upstream envelopes, answer alike when the parsed replies are the
    same. *)
Theorem C6_normalization_deterministic
    env1 req1 url1 init1 k1 env2 req2 url2 init2 k2 up1 up2 parsed :
  api_analyze env1 req1 = Fetch url1 init1 k1 ->
  api_analyze env2 req2 = Fetch url2 init2 k2 ->
  parsed_reply up1 parsed ->
  parsed_reply up2 parsed ->
  k1 up1 = k2 up2 /\ k1 up1 = normalize parsed.
Proof.
  intros H1 H2 Hup1 Hup2.
  rewrite (api_analyze_continuation _ _ _ _ _ H1).
  rewrite (api_analyze_continuation _ _ _ _ _ H2).
  by rewrite (handle_reply_parsed _ _ Hup1), (handle_reply_parsed _ _ Hup2).
Qed.

Lemma non_empty_string_guard v :
  negb (truthy v) || negb (has_type v TString) = negb (non_empty_string v).
Proof. destruct v as [| |[]|[]|[]| |]; reflexivity. Qed.

Lemma get_nullish_empty req name :
  get (nullish req (object [])) name = get req name.
Proof. by destruct req. Qed.

Lemma destructure_nullish req :
  destructure cannot_destructure (nullish req (object []))
  = inr (nullish req (object [])).
Proof. by destruct req. Qed.

(** C4: validation goes in order and the first failure wins: a
    [language] that is missing, empty or no string is answered 400
    [Missing language]; otherwise a [code] that is missing, empty or no
    string is answered 400 [Missing code]; otherwise an absent
    [GEMINI_API_KEY] is answered 500 [Server missing GEMINI_API_KEY]; in
    none of the three is the model provider called. *)
Theorem C4_validation_order (env : gmap (list N) jsstring) (req : value) :
  (non_empty_string (get req "language") = false ->
   rejects (api_analyze env req) 400 "Missing language")
  /\ (non_empty_string (get req "language") = true ->
      non_empty_string (get req "code") = false ->
      rejects (api_analyze env req) 400 "Missing code")
  /\ (non_empty_string (get req "language") = true ->
      non_empty_string (get req "code") = true ->
      env !! js "GEMINI_API_KEY" = None ->
      rejects (api_analyze env req) 500 "Server missing GEMINI_API_KEY").
Proof.
  unfold rejects, Server.api_analyze.
  rewrite destructure_nullish, !non_empty_string_guard, !get_nullish_empty.
  split; [|split].
  - by intros ->.
  - by intros -> ->.
  - by intros -> -> ->.
Qed.

(** C10: a request without a body, or with [null] for one, does not
    throw in the handler: it is answered 400 [Missing language], not the
    500 of the [catch]. *)
Theorem C10_absent_body_rejected (env : gmap (list N) jsstring) :
  api_analyze env VUndefined =
    Respond {| status := 400;
               body := object [("error", VStr (js "Missing language"))] |}
  /\ api_analyze env VNull =
    Respond {| status := 400;
               body := object [("error", VStr (js "Missing language"))] |}.
Proof. split; reflexivity. Qed.

(** C5 (amended): a reply with a failure status is answered 429 with
    [isRateLimit] when the status is 429 and 502 [Gemini request failed]
    otherwise; a success status whose body is JSON without a non-empty
    string at [candidates[0].content.parts[0].text] is answered 502
    [Gemini returned empty response]; a non-empty text that is not JSON
    is answered 502 [Gemini returned non-JSON], with the text for
    [details]. *)
Theorem C5_upstream_failures_classified (st : Z) (text : jsstring) :
  let r := handle_reply (Replied st text) in
  (ok st = false -> st = 429%Z ->
   status r = 429%Z /\ get (body r) "isRateLimit" = VBool true)
  /\ (ok st = false -> st <> 429%Z ->
      status r = 502%Z /\
      get (body r) "error" = VStr (js "Gemini request failed") /\
      get (body r) "details" = VStr text)
  /\ (ok st = true -> forall data,
      JSON_parse text = Some data ->
      non_empty_string (text_payload data) = false ->
      status r = 502%Z /\
      get (body r) "error" = VStr (js "Gemini returned empty response"))
  /\ (ok st = true -> forall data s,
      JSON_parse text = Some data ->
      text_payload data = VStr s -> s <> [] ->
      JSON_parse s = None ->
      status r = 502%Z /\
      get (body r) "error" = VStr (js "Gemini returned non-JSON") /\
      get (body r) "details" = VStr s).
Proof.
  cbn zeta. unfold Server.handle_reply.
  split; [|split; [|split]].
  - intros -> ->. split; reflexivity.
  - intros -> Hne. apply Z.eqb_neq in Hne. cbn [negb]. rewrite Hne.
    repeat split.
  - intros -> data Hdata Hpay. rewrite Hdata. cbn [negb].
    rewrite non_empty_string_guard, Hpay. split; reflexivity.
  - intros -> data s Hdata Hpay Hs Hparse. rewrite Hdata, Hpay.
    destruct s as [|c s]; [done|]. cbn. rewrite Hparse. repeat split.
Qed.

(** A success reply whose body is not JSON is none of the classes of
    C5: [response.json()] rejects and the [catch] answers 500. *)
Lemma unreadable_body_server_error st text :
  ok st = true -> JSON_parse text = None ->
  handle_reply (Replied st text)
  = server_error (Error (SyntaxError_message text)).
Proof. unfold Server.handle_reply. by intros -> ->. Qed.

(** A request that passes validation on a server with the key calls the
    model provider. *)
Lemma api_analyze_calls
    (env : gmap (list N) jsstring) (req : value) (key : jsstring) :
  non_empty_string (get req "language") = true ->
  non_empty_string (get req "code") = true ->
  env !! js "GEMINI_API_KEY" = Some key -> key <> [] ->
  calls_model (api_analyze env req) = true.
Proof.
  intros Hl Hc Hk Hne. unfold Server.api_analyze.
  rewrite destructure_nullish, !non_empty_string_guard, !get_nullish_empty.
  rewrite Hl, Hc. cbn [negb]. rewrite Hk. by destruct key.
Qed.

End Relay.

(** ** Concrete runs *)

(** Runs the parser on a concrete reply. *)
Ltac parsed_reply_by_computation :=
  eexists _, _, _, _;
  split; [reflexivity|];
  split; [reflexivity|];
  split; [vm_compute; reflexivity|];
  split; [vm_compute; reflexivity|];
  split; [discriminate|];
  vm_compute; reflexivity.

Lemma parsed_reply_no_error :
  parsed_reply JSON.parse Runs.reply_no_error Runs.parsed_no_error.
Proof.
  parsed_reply_by_computation.
Qed.

Lemma parsed_reply_syntax_error :
  parsed_reply JSON.parse Runs.reply_syntax_error Runs.parsed_syntax_error.
Proof.
  parsed_reply_by_computation.
Qed.

Lemma parsed_reply_syntax_error' :
  parsed_reply JSON.parse Runs.reply_syntax_error' Runs.parsed_syntax_error.
Proof.
  parsed_reply_by_computation.
Qed.

(** C1 at a reply that reports no error and still carries an [error]
    and a [correctedCode]. *)
Lemma C1_no_error_canonical_witness :
  parsed_reply JSON.parse Runs.reply_no_error Runs.parsed_no_error
  /\ truthy (get Runs.parsed_no_error "hasError") = false
  /\ Runs.handle_reply Runs.reply_no_error = canonical_no_error.
Proof.
  split; [exact parsed_reply_no_error|]. split; [reflexivity|].
  exact (C1_no_error_canonical JSON.parse Runs.host_stringify
           Runs.host_syntax_message _ _ parsed_reply_no_error eq_refl).
Defined.

(** C2 (failing input): at a reply with a true [hasError], no [error]
    and the number 5 for [correctedCode], the relay sends the
    placeholder and, with it, the number 5 for [correctedCode], where
    the claim has [null] for a [correctedCode] that is no string. *)
Theorem C2_placeholder_forwards_non_string :
  Runs.handle_reply Runs.reply_number_code =
    {| status := 200;
       body := object [("hasError", VBool true); ("error", unknown_error);
                       ("correctedCode", int 5)] |}
  /\ string_or_null (int 5) = VNull.
Proof. split; vm_compute; reflexivity. Qed.

(** C3 at a reply whose [error] has a string [type], a number for
    [reason] and a number [line]. *)
Lemma C3_error_object_coerced_witness :
  parsed_reply JSON.parse Runs.reply_syntax_error Runs.parsed_syntax_error
  /\ truthy (get Runs.parsed_syntax_error "hasError") = true
  /\ is_object (get Runs.parsed_syntax_error "error") = true
  /\ Runs.handle_reply Runs.reply_syntax_error =
       res_json (object
         [("hasError", VBool true);
          ("error", object [("type", VStr (js "SyntaxError"));
                            ("reason", VStr (js "Unknown"));
                            ("line", int 1)]);
          ("correctedCode", VStr (js "print('hi')"))]).
Proof.
  split; [exact parsed_reply_syntax_error|]. split; [reflexivity|].
  split; [reflexivity|].
  exact (C3_error_object_coerced JSON.parse Runs.host_stringify
           Runs.host_syntax_message _ _ parsed_reply_syntax_error eq_refl eq_refl).
Defined.

(** C4 at a request without [language], one with an empty [code], and a
    complete one on a server without the key. *)
Lemma C4_validation_order_witness :
  rejects (Runs.api_analyze Runs.env_with_key Runs.request_no_language)
          400 "Missing language"
  /\ rejects (Runs.api_analyze Runs.env_with_key Runs.request_no_code)
             400 "Missing code"
  /\ rejects (Runs.api_analyze ∅ Runs.request_python)
             500 "Server missing GEMINI_API_KEY".
Proof.
  split; [|split].
  - exact (proj1 (C4_validation_order JSON.parse Runs.host_stringify
             Runs.host_syntax_message Runs.host_type_error
             Runs.env_with_key Runs.request_no_language) eq_refl).
  - exact (proj1 (proj2 (C4_validation_order JSON.parse Runs.host_stringify
             Runs.host_syntax_message Runs.host_type_error
             Runs.env_with_key Runs.request_no_code)) eq_refl eq_refl).
  - exact (proj2 (proj2 (C4_validation_order JSON.parse Runs.host_stringify
             Runs.host_syntax_message Runs.host_type_error
             ∅ Runs.request_python)) eq_refl eq_refl eq_refl).
Defined.

(** C5 as stated fails at a success reply whose text is the empty
    string: the text is a string and is not JSON, and the relay answers
    [Gemini returned empty response]. *)
Lemma C5_counterexample_empty_text :
  ~ classifies_as_stated JSON.parse Runs.host_stringify Runs.host_syntax_message
      200 Runs.reply_empty_text.
Proof.
  intros (_ & _ & _ & H).
  destruct (H eq_refl Runs.parsed_empty_text [])
    as (_ & Herror & _); try (vm_compute; reflexivity).
  vm_compute in Herror. discriminate Herror.
Qed.

(** C5 at a 429, a 500, a success reply without candidates and a
    success reply whose text is [not json]. *)
Lemma C5_upstream_failures_classified_witness :
  Runs.handle_reply (Replied 429 (js "quota")) =
    {| status := 429;
       body := object
         [("error", VStr (js "Rate limit exceeded. Please wait a moment before trying again."));
          ("details", VStr (js "Free tier limit: 20 requests per day. Try again later or upgrade your plan."));
          ("isRateLimit", VBool true)] |}
  /\ (status (Runs.handle_reply (Replied 500 (js "down"))) = 502%Z
      /\ get (body (Runs.handle_reply (Replied 500 (js "down")))) "error"
         = VStr (js "Gemini request failed")
      /\ get (body (Runs.handle_reply (Replied 500 (js "down")))) "details"
         = VStr (js "down"))
  /\ (status (Runs.handle_reply (Replied 200 (js "{}"))) = 502%Z
      /\ get (body (Runs.handle_reply (Replied 200 (js "{}")))) "error"
         = VStr (js "Gemini returned empty response"))
  /\ (status (Runs.handle_reply (Replied 200 Runs.reply_not_json)) = 502%Z
      /\ get (body (Runs.handle_reply (Replied 200 Runs.reply_not_json)))
           "error" = VStr (js "Gemini returned non-JSON")
      /\ get (body (Runs.handle_reply (Replied 200 Runs.reply_not_json)))
           "details" = VStr (js "not json")).
Proof.
  split; [reflexivity|]. split; [|split].
  - refine (proj1 (proj2 (C5_upstream_failures_classified JSON.parse
             Runs.host_stringify Runs.host_syntax_message 500 (js "down")))
             eq_refl _).
    discriminate.
  - refine (proj1 (proj2 (proj2 (C5_upstream_failures_classified JSON.parse
             Runs.host_stringify Runs.host_syntax_message 200 (js "{}"))))
             eq_refl (VObj ∅) _ _); vm_compute; reflexivity.
  - refine (proj2 (proj2 (proj2 (C5_upstream_failures_classified JSON.parse
             Runs.host_stringify Runs.host_syntax_message 200 Runs.reply_not_json)))
             eq_refl Runs.parsed_not_json (js "not json") _ _ _ _);
      try discriminate; vm_compute; reflexivity.
Defined.

(** C6 at two calls that differ in request, environment, status and
    envelope and agree on the parsed reply. *)
Lemma C6_normalization_deterministic_witness :
  Runs.handle_reply Runs.reply_syntax_error
  = Runs.handle_reply Runs.reply_syntax_error'
  /\ Runs.handle_reply Runs.reply_syntax_error
     = normalize Runs.parsed_syntax_error.
Proof.
  destruct (Runs.api_analyze Runs.env_with_key Runs.request_python)
    as [|url1 init1 k1] eqn:E1; [discriminate E1|].
  destruct (Runs.api_analyze Runs.env_with_model Runs.request_java)
    as [|url2 init2 k2] eqn:E2; [discriminate E2|].
  injection E1 as _ _ <-. injection E2 as _ _ <-.
  exact (C6_normalization_deterministic JSON.parse Runs.host_stringify
           Runs.host_syntax_message Runs.host_type_error
           Runs.env_with_key Runs.request_python _ _ _
           Runs.env_with_model Runs.request_java _ _ _
           Runs.reply_syntax_error Runs.reply_syntax_error'
           Runs.parsed_syntax_error
           eq_refl eq_refl
           parsed_reply_syntax_error parsed_reply_syntax_error').
Defined.

End ServerFacts.

(* ===================================================================== *)
(** * Properties of the page controller                                   *)
(* ===================================================================== *)
Module ClientFacts.
Import JS Client.

(** ** [escapeHtml] *)

Lemma replaceAll_single c r s :
  replaceAll [c] r s = flat_map (fun x => if x =? c then r else [x]) s.
Proof.
  unfold replaceAll. induction s as [|a s IH]; [reflexivity|].
  cbn. rewrite andb_true_r, (N.eqb_sym c a).
  destruct (a =? c); by rewrite IH.
Qed.

Lemma escapeHtml_string_cons c s :
  escapeHtml_string (c :: s) = escape_unit c ++ escapeHtml_string s.
Proof.
  unfold escapeHtml_string.
  change (js "&") with [38]; change (js "<") with [60];
    change (js ">") with [62]; change (js "`") with [34];
    change (js "'") with [39].
  rewrite !replaceAll_single. cbn [flat_map]. rewrite !flat_map_app.
  f_equal. unfold escape_unit.
  destruct (N.eqb_spec c 38) as [->|?]; [reflexivity|].
  destruct (N.eqb_spec c 60) as [->|?]; [reflexivity|].
  destruct (N.eqb_spec c 62) as [->|?]; [reflexivity|].
  destruct (N.eqb_spec c 34) as [->|?]; [reflexivity|].
  destruct (N.eqb_spec c 39) as [->|?]; [reflexivity|].
  cbn. repeat (match goal with
               | |- context [?x =? ?y] =>
                   destruct (N.eqb_spec x y); [congruence|]
               end; cbn).
  reflexivity.
Qed.

Lemma escapeHtml_string_flat_map s :
  escapeHtml_string s = flat_map escape_unit s.
Proof.
  induction s as [|c s IH]; [reflexivity|].
  by rewrite escapeHtml_string_cons, IH.
Qed.

Lemma escape_unit_cases c :
  (is_special c = true /\ escape_unit c ∈ entities)
  \/ (is_special c = false /\ escape_unit c = [c]).
Proof.
  unfold is_special, escape_unit, entities.
  rewrite !elem_of_cons.
  repeat (match goal with
          | |- context [if ?b then _ else _] => destruct b
          end;
          [left; split; [reflexivity|];
           repeat (first [left; reflexivity | right])|]).
  by right.
Qed.

Lemma escapeHtml_string_escaped s : escaped (escapeHtml_string s).
Proof.
  induction s as [|c s IH]; [constructor|].
  rewrite escapeHtml_string_cons.
  destruct (escape_unit_cases c) as [[_ He]|[Hc ->]].
  - by apply escaped_entity.
  - by apply escaped_plain.
Qed.

Lemma entity_cases e :
  e ∈ entities ->
  e = js "&amp;" \/ e = js "&lt;" \/ e = js "&gt;" \/ e = js "&quot;"
  \/ e = js "&#039;".
Proof.
  unfold entities. rewrite !elem_of_cons, elem_of_nil. tauto.
Qed.

(** No code unit of an entity is [<], [>] or a quote. *)
Lemma entity_units e c :
  e ∈ entities -> c ∈ e -> c <> 60 /\ c <> 62 /\ c <> 34 /\ c <> 39.
Proof.
  intros He Hc.
  destruct (entity_cases e He) as [->|[->|[->|[->| ->]]]];
    vm_compute in Hc;
    repeat (apply elem_of_cons in Hc as [->|Hc]; [by repeat split|]);
    by apply elem_of_nil in Hc.
Qed.

Lemma escaped_units t c :
  escaped t -> c ∈ t -> c <> 60 /\ c <> 62 /\ c <> 34 /\ c <> 39.
Proof.
  induction 1 as [|c' s Hc' _ IH|e s He _ IH]; intros Hin.
  - by apply elem_of_nil in Hin.
  - apply elem_of_cons in Hin as [->|Hin]; [|by apply IH].
    unfold is_special in Hc'.
    repeat (apply orb_false_elim in Hc' as [Hc' ?]).
    repeat split; intros ->; discriminate.
  - apply elem_of_app in Hin as [Hin|Hin]; [|by apply IH].
    by apply (entity_units e).
Qed.

(** An ampersand of escaped text opens an entity. *)
Lemma escaped_ampersand t pre post :
  escaped t -> t = pre ++ 38 :: post ->
  exists e rest, e ∈ entities /\ 38 :: post = e ++ rest.
Proof.
  intros Ht. revert pre.
  induction Ht as [|c s Hc _ IH|e s He _ IH]; intros pre Heq.
  - by destruct pre.
  - destruct pre as [|p pre]; simplify_eq/=; try discriminate Hc.
    by eapply IH.
  - destruct (entity_cases e He) as [->|[->|[->|[->| ->]]]];
      vm_compute in Heq;
      repeat (destruct pre as [|? pre];
              [simplify_eq/=; try (eexists _, _; split; [exact He|reflexivity])
              |injection Heq as <- Heq]);
      by eapply IH.
Qed.

(** ** [analyze] *)

Section Host.

Variable Number_toString : number -> jsstring.
Variable no_such_method : value -> string -> exn.
Variable no_primitive : value -> exn.

Local Abbreviation ToString := (ToString Number_toString no_primitive).
Local Abbreviation escapeHtml := (escapeHtml no_such_method).
Local Abbreviation showErrorDetails :=
  (showErrorDetails Number_toString no_primitive).
Local Abbreviation showCorrectedCode := (showCorrectedCode no_such_method).
Local Abbreviation on_response :=
  (on_response Number_toString no_such_method no_primitive).
Local Abbreviation analyze :=
  (analyze Number_toString no_such_method no_primitive).

(** The page once the run [k] has settled on [out]. *)
Local Abbreviation settled k out := (snd (k out : option exn * page)).

(** What a relay call of [analyze] goes on with. *)
Lemma analyze_continuation st request k :
  analyze st = Fetch request k ->
  k = fun out =>
        try_catch_finally
          (match out with
           | NetworkError e => throw e
           | RelayResponse ok data => on_response ok data
           end)
          on_exception
          (exec (set_flag analyzeBtn_disabled false))
          (setStatus (js "Analyzing your code...")
                     (set_flag analyzeBtn_disabled true st)).
Proof.
  unfold Client.analyze.
  destruct (negb _); [discriminate|]. by intros [= _ <-].
Qed.

(** Whatever the [try] and the [catch] block do, after this [finally]
    the trigger is enabled. *)
Lemma try_catch_finally_enabled body handler st :
  flags (try_catch_finally body handler
           (exec (set_flag analyzeBtn_disabled false)) st).2
        analyzeBtn_disabled = false.
Proof.
  unfold try_catch_finally.
  destruct (body st) as [[e|] st1]; [|reflexivity].
  by destruct (handler e st1).
Qed.

(** The [catch] block throws nothing, so [analyze] throws nothing on. *)
Lemma analyze_completes st request k out :
  analyze st = Fetch request k -> (k out).1 = None.
Proof.
  intros ->%analyze_continuation. unfold try_catch_finally.
  by destruct (_ (setStatus _ _)) as [[e|] st1].
Qed.

(** C7: once a relay call of [analyze] has settled, the trigger is
    enabled again, whatever came back: a success, a failure status, a
    body of an unexpected shape or a network exception. *)
Theorem C7_trigger_reenabled st request k out :
  analyze st = Fetch request k ->
  flags (settled k out) analyzeBtn_disabled = false.
Proof.
  intros ->%analyze_continuation. apply try_catch_finally_enabled.
Qed.

(** An error detail of the relay is shown without an exception, and the
    panel of the corrected code is left as it was. *)
Lemma showErrorDetails_error_detail e st :
  error_detail e ->
  exists st1,
    showErrorDetails e st = (None, st1)
    /\ flags st1 correctedCodeEl_hidden = flags st correctedCodeEl_hidden
    /\ flags st1 analyzeBtn_disabled = flags st analyzeBtn_disabled.
Proof.
  intros ([t Ht] & [r Hr] & Hline). unfold Client.showErrorDetails.
  rewrite Ht, Hr.
  assert (exists l, (match get e "line" with
                     | VNull | VUndefined => inr (js "Unknown")
                     | _ => match ToString (get e "line") with
                            | inl x => inl x
                            | inr l => inr (js "Line " ++ l)
                            end
                     end) = inr l) as [l ->].
  { destruct Hline as [->|[n ->]]; eauto. }
  destruct t, r; cbn; eauto.
Qed.

Lemma error_detail_truthy e : error_detail e -> truthy e = true.
Proof. intros ([t Ht] & _). by destruct e. Qed.

(** What [showCorrectedCode] does to the panel. *)
Lemma showCorrectedCode_cases code st :
  (non_blank_string code = true /\
   exists st1, showCorrectedCode code st = (None, st1)
               /\ flags st1 correctedCodeEl_hidden = false
               /\ texts st1 fixedContentEl_textContent = string_of code)
  \/ (non_blank_string code = false /\
      ((exists st1, showCorrectedCode code st = (None, st1)
                    /\ flags st1 correctedCodeEl_hidden = true)
       \/ exists e, showCorrectedCode code st = (Some e, st))).
Proof.
  unfold Client.showCorrectedCode, and_trim, non_blank_string.
  destruct code as [| |[|]|[[|]|[|]| |[|] m e]|[|c s]|items|props];
    cbn -[trim];
    try (right; split; [reflexivity|];
         first [ left; eexists; split; reflexivity
               | right; eexists; reflexivity ]).
  destruct (trim (c :: s)); cbn.
  - right. split; [reflexivity|]. left. eexists. split; reflexivity.
  - left. split; [reflexivity|]. eexists. repeat split.
Qed.

(** C8: on a success of the relay with [hasError] true (and with it
    an error detail as the relay sends it), the panel of the corrected
    code is shown exactly when [correctedCode] is a string that is not
    empty once trimmed; for every other value ([null], an empty or blank
    string, something that is no string) it ends up hidden. *)
Theorem C8_corrected_code_panel st request k data :
  analyze st = Fetch request k ->
  get data "hasError" = VBool true ->
  error_detail (get data "error") ->
  flags (settled k (RelayResponse true data)) correctedCodeEl_hidden
  = negb (non_blank_string (get data "correctedCode")).
Proof.
  intros ->%analyze_continuation Herr Hdetail.
  assert (truthy data = true) as Hdata by (by destruct data).
  unfold try_catch_finally, Client.on_response.
  rewrite Hdata, Herr.
  change (has_type (VBool true) TBoolean) with true.
  cbn [negb orb truthy].
  unfold or_else. rewrite (error_detail_truthy _ Hdetail).
  unfold and_then at 1. unfold exec at 1.
  unfold and_then at 1.
  destruct (showErrorDetails_error_detail (get data "error")
              (set_text resultsContentEl_innerHTML errors_detected_html
                 (setStatus (js "Analyzing your code...")
                            (set_flag analyzeBtn_disabled true st))) Hdetail)
    as (st1 & -> & _ & _).
  unfold and_then.
  destruct (showCorrectedCode_cases (get data "correctedCode") st1)
    as [[-> (st2 & -> & Hhid & _)]|[-> [(st2 & -> & Hhid)|[e ->]]]];
    by cbn.
Qed.

(** On a failure status the panel is built from the escaped message
    and, for a rate limit, the escaped details. *)
Lemma failure_panel_escaped st request k data m d :
  analyze st = Fetch request k ->
  or_else (get data "error") (VStr (js "Request failed")) = VStr m ->
  or_else (get data "details") (VStr (js "")) = VStr d ->
  texts (settled k (RelayResponse false data)) resultsContentEl_innerHTML =
    if truthy (or_else (get data "isRateLimit") (VBool false))
    then rate_limit_html (escapeHtml_string m) (escapeHtml_string d)
    else analysis_failed_html (escapeHtml_string m).
Proof.
  intros ->%analyze_continuation Hm Hd.
  unfold try_catch_finally, Client.on_response. cbn [negb].
  rewrite Hm, Hd.
  by destruct (truthy (or_else (get data "isRateLimit") (VBool false))).
Qed.

(** Whatever a failure response holds, the panel is one of the three
    failure panels around escaped text. *)
Lemma failure_panel_markup st request k data :
  analyze st = Fetch request k ->
  failure_markup
    (texts (settled k (RelayResponse false data)) resultsContentEl_innerHTML).
Proof.
  intros ->%analyze_continuation.
  unfold try_catch_finally, Client.on_response, failure_markup.
  cbn [negb].
  destruct (truthy (or_else (get data "isRateLimit") (VBool false)));
    destruct (or_else (get data "error") (VStr (js "Request failed")));
    try (right; right; eexists; reflexivity).
  - destruct (or_else (get data "details") (VStr (js "")));
      try (right; right; eexists; reflexivity).
    left. eexists _, _. reflexivity.
  - right; left. eexists. reflexivity.
Qed.

(** After a network exception the panel holds the escaped message. *)
Lemma exception_panel_escaped st request k e :
  analyze st = Fetch request k ->
  texts (settled k (NetworkError e)) resultsContentEl_innerHTML =
    connection_error_html (escapeHtml_string (message e)).
Proof. by intros ->%analyze_continuation. Qed.

(** C9: [escapeHtml] replaces every [&], [<], [>], double quote and
    single quote by its entity, so that its result holds none of [<],
    [>] and the quotes, and no [&] but the first code unit of an entity;
    and the message and details of a failure response, and the message
    of an exception, reach the page only through it. *)
Theorem C9_escapeHtml_entities :
  (forall s, escapeHtml_string s = flat_map escape_unit s)
  /\ (forall s c, c ∈ escapeHtml_string s ->
        c <> 60 /\ c <> 62 /\ c <> 34 /\ c <> 39)
  /\ (forall s pre post, escapeHtml_string s = pre ++ 38 :: post ->
        exists e rest, e ∈ entities /\ 38 :: post = e ++ rest)
  /\ (forall st request k data,
        analyze st = Fetch request k ->
        failure_markup
          (texts (settled k (RelayResponse false data)) resultsContentEl_innerHTML)
        /\ forall m d,
          or_else (get data "error") (VStr (js "Request failed")) = VStr m ->
          or_else (get data "details") (VStr (js "")) = VStr d ->
          texts (settled k (RelayResponse false data)) resultsContentEl_innerHTML =
            if truthy (or_else (get data "isRateLimit") (VBool false))
            then rate_limit_html (escapeHtml_string m) (escapeHtml_string d)
            else analysis_failed_html (escapeHtml_string m))
  /\ (forall st request k e,
        analyze st = Fetch request k ->
        texts (settled k (NetworkError e)) resultsContentEl_innerHTML =
          connection_error_html (escapeHtml_string (message e))).
Proof.
  split; [exact escapeHtml_string_flat_map|].
  split; [intros s c; apply escaped_units, escapeHtml_string_escaped|].
  split; [intros s pre post; apply escaped_ampersand,
                               escapeHtml_string_escaped|].
  split.
  - intros st request k data Hk. split.
    + by eapply failure_panel_markup.
    + intros m d. by eapply failure_panel_escaped.
  - intros st request k e. by apply exception_panel_escaped.
Qed.

End Host.

(** ** The two files together *)

(** With a truthy [hasError], what the relay answers has a boolean
    [hasError] and an error detail. *)
Lemma normalize_error_detail parsed :
  truthy (get parsed "hasError") = true ->
  get (Server.body (Server.normalize parsed)) "hasError" = VBool true
  /\ error_detail (get (Server.body (Server.normalize parsed)) "error").
Proof.
  intros Htrue.
  destruct (Server.is_object (get parsed "error")) eqn:Hobj.
  - rewrite (ServerFacts.normalize_error_object _ Htrue Hobj).
    split; [reflexivity|]. unfold error_detail.
    change (get (Server.body (Server.res_json (object ?l))) "error")
      with (object
         [("type", Server.string_or "UnknownError"
                     (get (get parsed "error") "type"));
          ("reason", Server.string_or "Unknown"
                       (get (get parsed "error") "reason"));
          ("line", Server.number_or_null (get (get parsed "error") "line"))]).
    split; [|split].
    + destruct (get (get parsed "error") "type"); eexists; reflexivity.
    + destruct (get (get parsed "error") "reason"); eexists; reflexivity.
    + destruct (get (get parsed "error") "line"); eauto.
  - rewrite (ServerFacts.normalize_placeholder _ Htrue Hobj).
    split; [reflexivity|]. repeat split; eauto.
    all: eexists; reflexivity.
Qed.

(** ** Concrete runs *)

Lemma analyze_page_calls :
  exists request k, Runs.analyze Runs.page_with_code = Fetch request k.
Proof. eexists _, _. reflexivity. Qed.

(** C7 at a page with code in the editor, for a success, a rate limit,
    a body that is no JSON and a network failure. *)
Lemma C7_trigger_reenabled_witness :
  flags (Runs.settle Runs.relay_found_error) analyzeBtn_disabled = false
  /\ flags (Runs.settle Runs.relay_rate_limited) analyzeBtn_disabled = false
  /\ flags (Runs.settle (RelayResponse true VNull)) analyzeBtn_disabled = false
  /\ flags (Runs.settle Runs.relay_unreachable) analyzeBtn_disabled = false.
Proof.
  unfold Runs.settle, settle.
  destruct (Runs.analyze Runs.page_with_code) as [|request k] eqn:E;
    [discriminate E|].
  pose proof (fun out =>
    C7_trigger_reenabled Runs.host_number_toString Runs.host_no_method
      Runs.host_type_error Runs.page_with_code request k out E) as H.
  repeat split; apply H.
Defined.

(** C8 at a response with corrected code, at one whose [correctedCode]
    is blank and at one whose [correctedCode] is a number. *)
Lemma C8_corrected_code_panel_witness :
  flags (Runs.settle Runs.relay_found_error) correctedCodeEl_hidden = false
  /\ flags (Runs.settle Runs.relay_blank_code) correctedCodeEl_hidden = true
  /\ flags (Runs.settle Runs.relay_number_code) correctedCodeEl_hidden = true.
Proof.
  unfold Runs.settle, settle.
  destruct (Runs.analyze Runs.page_with_code) as [|request k] eqn:E;
    [discriminate E|].
  pose proof (fun data =>
    C8_corrected_code_panel Runs.host_number_toString Runs.host_no_method
      Runs.host_type_error Runs.page_with_code request k data E) as H.
  split; [|split].
  - refine (H Runs.found_error eq_refl _).
    repeat split; eauto; eexists; reflexivity.
  - refine (H Runs.blank_code eq_refl _).
    repeat split; eauto; eexists; reflexivity.
  - refine (H Runs.number_code eq_refl _).
    repeat split; eauto; eexists; reflexivity.
Defined.

(** C9 at a message that carries markup. *)
Lemma C9_escapeHtml_entities_witness :
  escapeHtml_string (js "<img src=`x` onerror='a&b'>")
  = js "&lt;img src=&quot;x&quot; onerror=&#039;a&amp;b&#039;&gt;".
Proof.
  rewrite (proj1 (C9_escapeHtml_entities Runs.host_number_toString Runs.host_no_method
                    Runs.host_type_error)).
  reflexivity.
Defined.

(** The relay's answer to the failing input of C2, shown by the page:
    [code.trim] is no function of a number, the exception lands in the
    [catch], and the page reports a connection error. *)
Lemma number_code_shows_connection_error :
  texts
    (Runs.settle
       (RelayResponse true
          (Server.body (Runs.handle_reply Runs.reply_number_code))))
    resultsContentEl_innerHTML
  = connection_error_html (js "TypeError")
  /\ flags
       (Runs.settle
          (RelayResponse true
             (Server.body (Runs.handle_reply Runs.reply_number_code))))
       correctedCodeEl_hidden
     = true.
Proof. split; vm_compute; reflexivity. Qed.

End ClientFacts.

(* ===================================================================== *)
(** * The built-ins and the scenarios of the specification, run           *)
(* ===================================================================== *)
Module Scenarios.
Import JS Client.

Example parse_rejects_empty_text : JSON.parse (js "") = None.
Proof. reflexivity. Qed.

Example parse_rejects_prose : JSON.parse (js "not json") = None.
Proof. reflexivity. Qed.

Example parse_rejects_trailing_comma : JSON.parse (js "[1,]") = None.
Proof. vm_compute. reflexivity. Qed.

Example parse_rounds_to_nearest :
  JSON.parse (js "0.1")
  = Some (VNum (S754_finite false 7205759403792794 (-56))).
Proof. vm_compute. reflexivity. Qed.

Example parse_overflows_to_infinity :
  JSON.parse (js "1e999") = Some (VNum (S754_infinity false)).
Proof. vm_compute. reflexivity. Qed.

Example parse_last_duplicate_wins :
  JSON.parse (js " {`a`: [1, true], `a`: null} ") = Some (object [("a", VNull)]).
Proof. vm_compute. reflexivity. Qed.

Example trim_both_ends : trim (js "  a b 	") = js "a b".
Proof. reflexivity. Qed.

Example replaceAll_no_overlap :
  replaceAll (js "aa") (js "b") (js "aaa") = js "ba".
Proof. reflexivity. Qed.

(** Scenario A: the relay reports a missing parenthesis at line 1 and
    corrected code; the page shows type, reason and line, and the panel
    with the corrected code. *)
Example scenario_A_error_with_correction :
  let st := Runs.page_after Runs.reply_missing_paren in
  texts st resultsContentEl_innerHTML = errors_detected_html
  /\ flags st errorDetailsEl_hidden = false
  /\ texts st errorTypeEl_textContent = js "SyntaxError"
  /\ texts st errorReasonEl_textContent = js "missing closing parenthesis"
  /\ texts st errorLineEl_textContent = js "Line 1"
  /\ flags st correctedCodeEl_hidden = false
  /\ texts st fixedContentEl_textContent = js "print('hi')"
  /\ flags st analyzeBtn_disabled = false.
Proof. vm_compute. repeat split. Qed.

(** Scenario B: the model reports no error; the page shows the success
    panel and hides the other two. *)
Example scenario_B_no_error :
  let st := Runs.page_after Runs.reply_clean in
  texts st resultsContentEl_innerHTML = showNoError_html
  /\ flags st errorDetailsEl_hidden = true
  /\ flags st correctedCodeEl_hidden = true
  /\ flags st analyzeBtn_disabled = false.
Proof. vm_compute. repeat split. Qed.

(** Scenario C: the provider answers 429; the relay answers 429 with
    [isRateLimit], and the page shows the panel for a rate limit. *)
Example scenario_C_rate_limit :
  let st := Runs.page_after (Server.Replied 429 (js "quota")) in
  Server.status (Runs.handle_reply (Server.Replied 429 (js "quota"))) = 429%Z
  /\ texts st resultsContentEl_innerHTML
     = rate_limit_html
         (js "Rate limit exceeded. Please wait a moment before trying again.")
         (js "Free tier limit: 20 requests per day. Try again later or upgrade your plan.")
  /\ flags st errorDetailsEl_hidden = true
  /\ flags st correctedCodeEl_hidden = true.
Proof. vm_compute. repeat split. Qed.

(** Scenario D: the provider answers 200 with the text [not json]; the
    relay answers 502 and the page shows the panel for a failure. *)
Example scenario_D_not_json :
  let st := Runs.page_after (Server.Replied 200 Runs.reply_not_json) in
  Server.status (Runs.handle_reply (Server.Replied 200 Runs.reply_not_json))
  = 502%Z
  /\ texts st resultsContentEl_innerHTML
     = analysis_failed_html (js "Gemini returned non-JSON")
  /\ flags st errorDetailsEl_hidden = true
  /\ flags st correctedCodeEl_hidden = true.
Proof. vm_compute. repeat split. Qed.

End Scenarios.

(* ===================================================================== *)
(** * More properties of the relay                                        *)
(* ===================================================================== *)
Module RelayFacts.
Import JS Server Exchange.

Section Relay.

Variable JSON_parse : jsstring -> option value.
Variable JSON_stringify : value -> value.
Variable SyntaxError_message : jsstring -> jsstring.
Variable cannot_destructure : value -> exn.

Local Abbreviation handle_reply :=
  (handle_reply JSON_parse JSON_stringify SyntaxError_message).
Local Abbreviation api_analyze :=
  (api_analyze JSON_parse JSON_stringify SyntaxError_message
               cannot_destructure).
Local Abbreviation parsed_reply := (parsed_reply JSON_parse).

Ltac in_list := cbn; solve [repeat constructor].

Lemma normalize_status parsed : status (normalize parsed) = 200%Z.
Proof.
  unfold normalize.
  repeat (match goal with
          | |- context [if ?b then _ else _] => destruct b
          end; try reflexivity).
Qed.

(** X1: The relay answers 200 exactly to a reply with a success status, a
    JSON body, a non-empty text in it and JSON in that text. *)
Theorem relay_success_iff up :
  status (handle_reply up) = 200%Z <-> exists parsed, parsed_reply up parsed.
Proof.
  split.
  - unfold Server.handle_reply. destruct up as [e|st text]; [discriminate|].
    destruct (ok st) eqn:Hok; cbn [negb].
    2: { destruct (st =? 429)%Z; discriminate. }
    destruct (JSON_parse text) as [data|] eqn:Hdata; [|discriminate].
    rewrite ServerFacts.non_empty_string_guard.
    destruct (text_payload data) as [| | | |[|c s]| |] eqn:Hpay;
      try discriminate.
    cbn [non_empty_string negb string_of].
    destruct (JSON_parse (c :: s)) as [parsed|] eqn:Hparsed; [|discriminate].
    intros _. exists parsed, st, text, data, (c :: s). by repeat split.
  - intros [parsed H].
    rewrite (ServerFacts.handle_reply_parsed _ _ _ _ _ H).
    apply normalize_status.
Qed.

(** X2: Whatever the request, the environment and the provider's side, the
    handler answers with one of five statuses. *)
Theorem relay_statuses (env : gmap (list N) jsstring) req up :
  status (answer (api_analyze env req) up) ∈ [200; 400; 429; 500; 502]%Z.
Proof.
  assert (forall up, status (handle_reply up) ∈ [200; 400; 429; 500; 502]%Z)
    as Hreply.
  { clear. intros up. unfold Server.handle_reply.
    destruct up as [e|st text]; [in_list|].
    destruct (negb (ok st)); [destruct (st =? 429)%Z; in_list|].
    destruct (JSON_parse text) as [data|]; [|in_list].
    destruct (_ || _); [in_list|].
    destruct (JSON_parse _); [|in_list].
    rewrite normalize_status. in_list. }
  unfold Server.api_analyze, answer.
  rewrite ServerFacts.destructure_nullish.
  repeat (match goal with
          | |- context [if ?b then _ else _] => destruct b
          end; try in_list).
  apply Hreply.
Qed.

Lemma string_or_is_string fallback v :
  string_or fallback v = VStr (string_of (string_or fallback v)).
Proof. by destruct v. Qed.

(** X3: Every 200 answer has the three fields and no other: [hasError] is
    the truthiness of the reply's; without an error the other two are
    [null]; with one, [error] holds a string [type], a string [reason]
    and a [line] that is a number or [null], and nothing else, and
    [correctedCode] is never [undefined] (and is a string or [null] when
    the reply's [error] was an object). *)
Theorem relay_answer_shape parsed :
  exists error correctedCode,
    body (normalize parsed) =
      object [("hasError", VBool (truthy (get parsed "hasError")));
              ("error", error); ("correctedCode", correctedCode)]
    /\ (truthy (get parsed "hasError") = false ->
        error = VNull /\ correctedCode = VNull)
    /\ (truthy (get parsed "hasError") = true ->
        (exists t r l,
           error = object [("type", VStr t); ("reason", VStr r); ("line", l)]
           /\ (l = VNull \/ exists n, l = VNum n))
        /\ correctedCode <> VUndefined
        /\ (is_object (get parsed "error") = true ->
            correctedCode = VNull \/ exists s, correctedCode = VStr s)).
Proof.
  destruct (truthy (get parsed "hasError")) eqn:Htrue.
  - destruct (is_object (get parsed "error")) eqn:Hobj.
    + rewrite (ServerFacts.normalize_error_object _ Htrue Hobj).
      eexists _, _. split; [reflexivity|]. split; [discriminate|].
      intros _. split; [|split].
      * exists (string_of (string_or "UnknownError"
                             (get (get parsed "error") "type"))),
               (string_of (string_or "Unknown"
                             (get (get parsed "error") "reason"))),
               (number_or_null (get (get parsed "error") "line")).
        rewrite <- !string_or_is_string. split; [reflexivity|].
        destruct (get (get parsed "error") "line"); cbn; eauto.
      * by destruct (get parsed "correctedCode").
      * intros _. destruct (get parsed "correctedCode"); cbn; eauto.
    + rewrite (ServerFacts.normalize_placeholder _ Htrue Hobj).
      eexists _, _. split; [reflexivity|]. split; [discriminate|].
      intros _. split; [|split].
      * eexists _, _, _. split; [reflexivity|by left].
      * by destruct (get parsed "correctedCode").
      * discriminate.
  - rewrite (ServerFacts.normalize_no_error _ Htrue).
    eexists _, _. split; [reflexivity|]. split; [done|discriminate].
Qed.

(** X4: A reply that already has the canonical shape is answered as it is:
    one with an error, string [type] and [reason], a number or [null]
    for [line] and a string or [null] for [correctedCode], and the one
    without an error. *)
Theorem canonical_reply_unchanged
    (t r : jsstring) (line : option number) (code : option jsstring) :
  let reply :=
    object [("hasError", VBool true);
            ("error", object [("type", VStr t); ("reason", VStr r);
                              ("line", from_option VNum VNull line)]);
            ("correctedCode", from_option VStr VNull code)] in
  normalize reply = res_json reply
  /\ normalize (body canonical_no_error) = canonical_no_error.
Proof. destruct line, code; split; reflexivity. Qed.

(** X5: The handler calls the provider exactly for a request with a
    non-empty string [language], a non-empty string [code] and a
    [GEMINI_API_KEY] that is set and not empty; an empty key is answered
    like a missing one. *)
Theorem relay_calls_iff (env : gmap (list N) jsstring) req :
  calls_model (api_analyze env req)
  = non_empty_string (get req "language")
    && non_empty_string (get req "code")
    && match env !! js "GEMINI_API_KEY" with
       | Some (_ :: _) => true
       | _ => false
       end
  /\ (non_empty_string (get req "language") = true ->
      non_empty_string (get req "code") = true ->
      env !! js "GEMINI_API_KEY" = Some (js "") ->
      rejects (api_analyze env req) 500 "Server missing GEMINI_API_KEY").
Proof.
  unfold rejects, Server.api_analyze.
  rewrite ServerFacts.destructure_nullish,
    !ServerFacts.non_empty_string_guard, !ServerFacts.get_nullish_empty.
  split.
  - destruct (non_empty_string (get req "language")); [|reflexivity].
    destruct (non_empty_string (get req "code")); [|reflexivity].
    by destruct (env !! js "GEMINI_API_KEY") as [[|c key]|].
  - intros Hl Hc Hk. rewrite Hl, Hc. cbn [negb]. by rewrite Hk.
Qed.

End Relay.

(** ** [buildPrompt] *)

(** Two texts that agree after prefixes without a line feed, each
    followed by a line feed, have the same prefix. *)
Lemma line_feed_delimits (l1 l2 x y : jsstring) :
  10 ∉ l1 -> 10 ∉ l2 -> l1 ++ 10 :: x = l2 ++ 10 :: y -> l1 = l2 /\ x = y.
Proof.
  revert l2. induction l1 as [|a l1 IH]; intros [|b l2] H1 H2 Heq;
    simplify_eq/=.
  - done.
  - exfalso. apply H2. by left.
  - exfalso. apply H1. by left.
  - destruct (IH l2) as [-> ->]; try done.
    + intros Hin. apply H1. by right.
    + intros Hin. apply H2. by right.
Qed.

(** X6: For languages without a line feed (as the four of the page), the
    prompt tells the request: two requests with the same prompt have the
    same language and the same code. *)
Theorem buildPrompt_injective (language1 code1 language2 code2 : jsstring) :
  10 ∉ language1 -> 10 ∉ language2 ->
  buildPrompt language1 code1 = buildPrompt language2 code2 ->
  language1 = language2 /\ code1 = code2.
Proof.
  intros H1 H2 Heq.
  pose proof (f_equal (fun msgs => match msgs with
                                   | m :: _ => content m
                                   | [] => []
                                   end) Heq) as Hc.
  cbv beta iota delta [buildPrompt content] in Hc.
  apply app_inv_head in Hc.
  match type of Hc with
  | _ ++ ?mid ++ _ = _ =>
      assert (exists mid', mid = 10 :: mid') as [mid' Hmid]
        by (eexists; reflexivity);
      rewrite Hmid in Hc
  end.
  destruct (line_feed_delimits _ _ _ _ H1 H2 Hc) as [-> Hrest].
  split; [reflexivity|].
  apply app_inv_head in Hrest. by apply app_inv_tail in Hrest.
Qed.

(** Without that, it does not: a language that carries the heading of
    the code gives the prompt of another request. *)
Lemma buildPrompt_not_injective :
  exists language1 code1 language2 code2,
    (language1, code1) <> (language2, code2)
    /\ buildPrompt language1 code1 = buildPrompt language2 code2.
Proof.
  exists (js "c"), ([10; 10] ++ js "Code:" ++ [10; 10] ++ js "x"),
         (js "c" ++ [10; 10] ++ js "Code:" ++ [10; 10]), (js "x").
  split; [discriminate|]. vm_compute. reflexivity.
Qed.

(** [buildPrompt_injective] at two requests for Python. *)
Lemma buildPrompt_injective_witness :
  (10 ∉ js "python")
  /\ buildPrompt (js "python") (js "x = 1")
     = buildPrompt (js "python") (js "x = 1")
  /\ js "python" = js "python" /\ js "x = 1" = js "x = 1".
Proof.
  assert (10 ∉ js "python") as H.
  { vm_compute. intros Hin.
    repeat (apply elem_of_cons in Hin as [Hin|Hin]; [discriminate Hin|]).
    by apply elem_of_nil in Hin. }
  split; [exact H|]. split; [reflexivity|].
  exact (buildPrompt_injective (js "python") (js "x = 1")
           (js "python") (js "x = 1") H H eq_refl).
Defined.

End RelayFacts.

(* ===================================================================== *)
(** * More properties of the page                                         *)
(* ===================================================================== *)
Module PageFacts.
Import JS Client Page Exchange.

(** ** [escapeHtml] *)

Lemma escape_unit_length c : (1 <= length (escape_unit c))%nat.
Proof.
  unfold escape_unit.
  repeat (match goal with
          | |- context [if ?b then _ else _] => destruct b
          end; [cbn; lia|]).
  cbn; lia.
Qed.

Lemma escapeHtml_string_length s :
  (length s <= length (escapeHtml_string s))%nat.
Proof.
  induction s as [|c s IH]; [cbn; lia|].
  rewrite ClientFacts.escapeHtml_string_cons, length_app.
  pose proof (escape_unit_length c). cbn [length]. lia.
Qed.

(** What [escape_unit] gives tells the code unit, and what follows it. *)
Lemma escape_unit_prefix c1 c2 (r1 r2 : jsstring) :
  escape_unit c1 ++ r1 = escape_unit c2 ++ r2 -> c1 = c2 /\ r1 = r2.
Proof.
  unfold escape_unit.
  destruct (N.eqb_spec c1 38) as [->|?];
    [|destruct (N.eqb_spec c1 60) as [->|?];
      [|destruct (N.eqb_spec c1 62) as [->|?];
        [|destruct (N.eqb_spec c1 34) as [->|?];
          [|destruct (N.eqb_spec c1 39) as [->|?]]]]];
  (destruct (N.eqb_spec c2 38) as [->|?];
    [|destruct (N.eqb_spec c2 60) as [->|?];
      [|destruct (N.eqb_spec c2 62) as [->|?];
        [|destruct (N.eqb_spec c2 34) as [->|?];
          [|destruct (N.eqb_spec c2 39) as [->|?]]]]]);
  cbn; intros Heq; simplify_eq; done.
Qed.

(** X7: [escapeHtml] loses nothing: two strings that escape alike are the
    same string. *)
Theorem escapeHtml_injective s1 s2 :
  escapeHtml_string s1 = escapeHtml_string s2 -> s1 = s2.
Proof.
  revert s2. induction s1 as [|c1 s1 IH]; intros [|c2 s2] Heq.
  - reflexivity.
  - rewrite ClientFacts.escapeHtml_string_cons in Heq.
    pose proof (escape_unit_length c2).
    apply (f_equal length) in Heq. rewrite length_app in Heq.
    cbn in Heq. lia.
  - rewrite ClientFacts.escapeHtml_string_cons in Heq.
    pose proof (escape_unit_length c1).
    apply (f_equal length) in Heq. rewrite length_app in Heq.
    cbn in Heq. lia.
  - rewrite !ClientFacts.escapeHtml_string_cons in Heq.
    apply escape_unit_prefix in Heq as [-> Heq]. f_equal. by apply IH.
Qed.

(** X8: [escapeHtml] leaves a string as it is exactly when the string has
    none of the five characters. *)
Theorem escapeHtml_unchanged_iff s :
  escapeHtml_string s = s <-> no_special s.
Proof.
  unfold no_special. induction s as [|c s IH].
  - split; [intros _ c Hc; by apply elem_of_nil in Hc|reflexivity].
  - rewrite ClientFacts.escapeHtml_string_cons.
    destruct (ClientFacts.escape_unit_cases c) as [[Hc He]|[Hc ->]].
    + split.
      * intros Heq. exfalso.
        pose proof (escapeHtml_string_length s) as Hlen.
        apply (f_equal length) in Heq. rewrite length_app in Heq.
        cbn [length] in Heq.
        destruct (ClientFacts.entity_cases _ He) as [E|[E|[E|[E|E]]]];
          rewrite E in Heq; cbn in Heq; lia.
      * intros Hall. rewrite Hall in Hc; [discriminate|by left].
    + cbn [app]. split.
      * intros [= Heq] c' [->|Hin]%elem_of_cons; [done|].
        by apply IH.
      * intros Hall. f_equal. apply IH. intros c' Hin. apply Hall.
        by right.
Qed.

(** ** [split], [join] and the gutter *)

Lemma split_not_nil sep s : split sep s <> [].
Proof.
  destruct s as [|c s]; cbn; [done|].
  destruct (c =? sep); [done|]. by destruct (split sep s).
Qed.

(** A text has one more piece than it has separators. *)
Lemma split_length sep s :
  length (split sep s) = S (count_occ N.eq_dec s sep).
Proof.
  induction s as [|c s IH]; [done|]. cbn [split count_occ].
  destruct (N.eqb_spec c sep) as [->|Hne].
  - destruct (N.eq_dec sep sep); [|done]. cbn. by rewrite IH.
  - destruct (N.eq_dec c sep); [done|].
    pose proof (split_not_nil sep s). by destruct (split sep s).
Qed.

Lemma split_free sep p : sep ∉ p -> split sep p = [p].
Proof.
  induction p as [|c p IH]; [done|].
  intros [Hc Hp]%not_elem_of_cons. cbn.
  destruct (N.eqb_spec c sep) as [->|_]; [done|]. by rewrite IH.
Qed.

Lemma split_app_sep sep p s :
  sep ∉ p -> split sep (p ++ sep :: s) = p :: split sep s.
Proof.
  induction p as [|c p IH].
  - intros _. cbn. by rewrite N.eqb_refl.
  - intros [Hc Hp]%not_elem_of_cons. cbn.
    destruct (N.eqb_spec c sep) as [->|_]; [done|]. by rewrite IH.
Qed.

(** [split] undoes [join] on pieces that hold no separator. *)
Lemma split_join sep pieces :
  pieces <> [] -> Forall (fun p => sep ∉ p) pieces ->
  split sep (join [sep] pieces) = pieces.
Proof.
  induction pieces as [|p [|q rest] IH]; [done| |]; intros _ Hfree.
  - cbn. apply split_free. by inversion Hfree.
  - inversion Hfree as [|? ? Hp Hrest]; subst.
    change (join [sep] (p :: q :: rest))
      with (p ++ sep :: join [sep] (q :: rest)).
    rewrite split_app_sep by done. by rewrite IH.
Qed.

Lemma uint_digits (u : Decimal.uint) c :
  c ∈ js (DecimalString.NilEmpty.string_of_uint u) -> 48 <= c <= 57.
Proof.
  induction u as [|u IH|u IH|u IH|u IH|u IH|u IH|u IH|u IH|u IH|u IH];
    cbn; [by intros ?%elem_of_nil|..];
    (intros [->|H]%elem_of_cons; [by vm_compute|by apply IH]).
Qed.

(** The spelling of a number has decimal digits only. *)
Lemma decimal_digits n c : c ∈ decimal n -> 48 <= c <= 57.
Proof.
  unfold decimal, index_key, DecimalString.NilZero.string_of_uint.
  destruct (Nat.to_uint n) eqn:E; try apply uint_digits.
  cbn. intros [->|H]%elem_of_cons; [by vm_compute|by apply elem_of_nil in H].
Qed.

(** X9: The gutter, cut at its line feeds, is the numbers from 1 to the
    number of lines of the code, which is one more than the code has line
    feeds: an empty editor has line 1. *)
Theorem gutter_numbers doc :
  split 10 (lineNumbersEl_innerHTML (updateLineNumbers doc))
  = map decimal
        (seq 1 (S (count_occ N.eq_dec (texts (page_of doc) codeEl_value) 10))).
Proof.
  unfold updateLineNumbers, line_numbers. cbn [lineNumbersEl_innerHTML].
  rewrite split_length.
  set (n := S (count_occ _ _ _)).
  assert (map (fun i => decimal (i + 1)) (seq 0 n) = map decimal (seq 1 n))
    as ->.
  { rewrite <- seq_shift, map_map. apply map_ext. intros i.
    by rewrite Nat.add_1_r. }
  apply split_join; [done|].
  apply Forall_map, Forall_true. intros i Hin.
  apply decimal_digits in Hin. lia.
Qed.

(** ** What a statement keeps *)

Lemma preserves_exec P f :
  (forall st, P st -> P (f st)) -> preserves P (exec f).
Proof. intros H st. apply H. Qed.

Lemma preserves_throw P e : preserves P (throw e).
Proof. by intros st. Qed.

Lemma preserves_and_then P c1 c2 :
  preserves P c1 -> preserves P c2 -> preserves P (and_then c1 c2).
Proof.
  intros H1 H2 st HP. unfold and_then. specialize (H1 st HP).
  destruct (c1 st) as [[e|] st1]; [exact H1|].
  by apply H2.
Qed.

Lemma preserves_eval {A} P (r : exn + A) k :
  (forall a, preserves P (k a)) -> preserves P (eval r k).
Proof. intros H st. unfold eval. destruct r as [e|a]; [done|apply H]. Qed.

Lemma preserves_try P body handler final :
  preserves P body -> (forall e, preserves P (handler e)) ->
  preserves P final ->
  preserves P (try_catch_finally body handler final).
Proof.
  intros Hb Hh Hf st HP. unfold try_catch_finally. specialize (Hb st HP).
  destruct (body st) as [[e|] st1].
  - specialize (Hh e st1 Hb). destruct (handler e st1) as [r st2].
    specialize (Hf st2 Hh). by destruct (final st2) as [l st3].
  - specialize (Hf st1 Hb). by destruct (final st1) as [l st3].
Qed.

(** Statements that write other slots than those [P] reads keep [P]. *)
Ltac preserve :=
  repeat first
    [ apply preserves_and_then
    | apply preserves_eval; intros ?
    | apply preserves_throw
    | apply preserves_exec; let H := fresh in intros ? H; exact H
    | match goal with
      | |- preserves _ (if ?b then _ else _) => destruct b
      | H : forall x, preserves _ _ |- _ => apply H
      end ].

Section Host.

Variable Number_toString : number -> jsstring.
Variable no_such_method : value -> string -> exn.
Variable no_primitive : value -> exn.
Variable inherited_text : jsstring -> jsstring.
Variable voices : list voice.

Local Abbreviation showErrorDetails :=
  (showErrorDetails Number_toString no_primitive).
Local Abbreviation showCorrectedCode := (showCorrectedCode no_such_method).
Local Abbreviation on_response :=
  (on_response Number_toString no_such_method no_primitive).
Local Abbreviation analyze :=
  (analyze Number_toString no_such_method no_primitive).
Local Abbreviation resume :=
  (resume Number_toString no_such_method no_primitive).
Local Abbreviation selectLanguage := (selectLanguage inherited_text).
Local Abbreviation step :=
  (step Number_toString no_such_method no_primitive inherited_text voices).
Local Abbreviation run :=
  (run Number_toString no_such_method no_primitive inherited_text voices).

Lemma on_response_preserves P ok data :
  untouched P -> preserves P (on_response ok data).
Proof.
  intros [code|lang|b|b|label];
    unfold Client.on_response, Client.showErrorDetails,
      Client.showCorrectedCode; cbv zeta; preserve.
Qed.

(** A relay call of [analyze] goes on with [resume] on the page that
    [started] leaves, and its request holds the language of the page and
    the trimmed code. *)
Lemma analyze_fetch st request k :
  analyze st = Fetch request k ->
  trim (texts st codeEl_value) <> []
  /\ request = object [("language", VStr (texts st currentLanguage));
                       ("code", VStr (trim (texts st codeEl_value)))]
  /\ k = fun out => resume out (started st).
Proof.
  unfold Client.analyze.
  destruct (trim (texts st codeEl_value)) as [|c code] eqn:Hcode;
    [discriminate|].
  intros [= <- <-]. by repeat split.
Qed.

Lemma analyze_return st st' :
  analyze st = Return st' ->
  trim (texts st codeEl_value) = []
  /\ st' = setStatus (js "Please write or paste some code first.") st.
Proof.
  unfold Client.analyze.
  destruct (trim (texts st codeEl_value)) as [|c code] eqn:Hcode;
    [|discriminate].
  by intros [= <-].
Qed.

Lemma analyze_blank st :
  trim (texts st codeEl_value) = [] ->
  analyze st = Return (setStatus (js "Please write or paste some code first.") st).
Proof. unfold Client.analyze. by intros ->. Qed.

Lemma resume_keeps_text slot out st :
  slot = codeEl_value \/ slot = currentLanguage ->
  texts (resume out st).2 slot = texts st slot.
Proof.
  intros Hslot.
  enough (preserves (fun st' => texts st' slot = texts st slot) (resume out))
    as H by by apply H.
  unfold Page.resume. apply preserves_try.
  - destruct out as [e|ok data]; [apply preserves_throw|].
    apply on_response_preserves. destruct Hslot as [-> | ->]; constructor.
  - intros e. unfold on_exception. destruct Hslot as [-> | ->]; preserve.
  - destruct Hslot as [-> | ->]; preserve.
Qed.

(** X10: Whatever the relay answers, and whatever goes wrong, the code in
    the editor and the selected language are after [analyze] what they
    were when the answer came. *)
Theorem resume_keeps_editor out st :
  texts (resume out st).2 codeEl_value = texts st codeEl_value
  /\ texts (resume out st).2 currentLanguage = texts st currentLanguage.
Proof. split; apply resume_keeps_text; [by left|by right]. Qed.

Lemma resume_speak_button out st :
  speak_button_matches st -> speak_button_matches (resume out st).2.
Proof.
  intros [Hclass Hlabel]. unfold Page.resume, try_catch_finally.
  assert (forall P, untouched P ->
            preserves P (match out with
                         | NetworkError e => throw e
                         | RelayResponse ok data => on_response ok data
                         end)) as Hbody.
  { intros P HP. destruct out as [e|ok data]; [apply preserves_throw|].
    by apply on_response_preserves. }
  pose proof (Hbody _ (untouched_speaking (flags st isSpeaking)) st eq_refl)
    as H1.
  pose proof (Hbody _ (untouched_speak_class (flags st speakBtn_speaking))
                st eq_refl) as H2.
  pose proof (Hbody _ (untouched_speak_label (texts st speakBtn_innerHTML))
                st eq_refl) as H3.
  destruct (match out with
            | NetworkError e => throw e
            | RelayResponse ok data => on_response ok data
            end st) as [[e|] st1]; cbn in H1, H2, H3.
  - by split.
  - split.
    + change (flags st1 speakBtn_speaking = flags st1 isSpeaking).
      congruence.
    + change (texts st1 speakBtn_innerHTML =
              if flags st1 isSpeaking
              then js "<i class=`fas fa-stop`></i> Stop Speaking"
              else js "<i class=`fas fa-volume-up`></i> Listen to Explanation").
      rewrite H3, H1. exact Hlabel.
Qed.

(** ** The page over time *)

Local Abbreviation language_shown := (language_shown inherited_text).

Lemma run_invariant (P : session -> Prop) a evs :
  (forall a ev, P a -> P (step a ev)) -> P a -> P (run a evs).
Proof.
  intros Hstep. unfold Page.run. revert a.
  induction evs as [|ev evs IH]; intros a Ha; cbn [fold_left]; [done|].
  by apply IH, Hstep.
Qed.

Lemma run_app a evs1 evs2 : run a (evs1 ++ evs2) = run (run a evs1) evs2.
Proof. apply fold_left_app. Qed.

(** Only a click on a language button changes the language, and only
    the input event and [reset] change the code. *)
Lemma step_language a ev :
  texts (page_of (doc (step a ev))) currentLanguage
  = match ev with
    | LangClick lang => lang
    | _ => texts (page_of (doc a)) currentLanguage
    end.
Proof.
  destruct ev as [|lang|value| |out| | |succeeded| | |]; cbn [Page.step];
    try reflexivity.
  - destruct (flags _ _); [done|].
    destruct (analyze (page_of (doc a))) as [st'|request k] eqn:E; [|done].
    by apply analyze_return in E as [_ ->].
  - destruct (in_flight a); [done|]. exact (resume_keeps_text _ out (page_of (doc a)) (or_intror eq_refl)).
  - by destruct (copyCorrectedCode (page_of (doc a))).
  - destruct (copying a); [done|]. by destruct succeeded.
  - cbn [doc on_page page_of]. unfold toggleSpeech.
    by destruct (flags (page_of (doc a)) isSpeaking).
Qed.

Lemma step_code a ev :
  texts (page_of (doc (step a ev))) codeEl_value
  = match ev with
    | InputEvent value => value
    | ResetClick => []
    | _ => texts (page_of (doc a)) codeEl_value
    end.
Proof.
  destruct ev as [|lang|value| |out| | |succeeded| | |]; cbn [Page.step];
    try reflexivity.
  - destruct (flags _ _); [done|].
    destruct (analyze (page_of (doc a))) as [st'|request k] eqn:E; [|done].
    by apply analyze_return in E as [_ ->].
  - destruct (in_flight a); [done|]. exact (resume_keeps_text _ out (page_of (doc a)) (or_introl eq_refl)).
  - by destruct (copyCorrectedCode (page_of (doc a))).
  - destruct (copying a); [done|]. by destruct succeeded.
  - cbn [doc on_page page_of]. unfold toggleSpeech.
    by destruct (flags (page_of (doc a)) isSpeaking).
Qed.

Lemma step_gutter a ev :
  gutter_matches (doc a) -> gutter_matches (doc (step a ev)).
Proof.
  unfold gutter_matches. intros H. rewrite step_code.
  destruct ev as [|lang|value| |out| | |succeeded| | |]; cbn [Page.step];
    try reflexivity; try exact H.
  - destruct (flags _ _); [done|].
    by destruct (analyze (page_of (doc a))) as [st'|request k].
  - by destruct (in_flight a).
  - by destruct (copyCorrectedCode (page_of (doc a))).
  - destruct (copying a); [done|]. by destruct succeeded.
Qed.

Lemma step_flight a ev : flight_matches a -> flight_matches (step a ev).
Proof.
  unfold flight_matches. intros H.
  destruct ev as [|lang|value| |out| | |succeeded| | |]; cbn [Page.step];
    try exact H.
  - destruct (flags (page_of (doc a)) analyzeBtn_disabled) eqn:Hd;
      cbv beta iota; [by rewrite Hd|].
    destruct (analyze (page_of (doc a))) as [st'|request k] eqn:E.
    + apply analyze_return in E as [_ ->].
      cbn [doc in_flight on_page page_of].
      change (in_flight a
              = if flags (page_of (doc a)) analyzeBtn_disabled
                then 1%nat else 0%nat).
      by rewrite Hd.
    + cbn [doc in_flight on_page page_of].
      change (S (in_flight a) = 1%nat). by rewrite H.
  - destruct (in_flight a) as [|n] eqn:Hn; [by rewrite Hn|].
    cbn [doc in_flight on_page page_of]. unfold Page.resume.
    rewrite ClientFacts.try_catch_finally_enabled.
    destruct (flags _ _); congruence.
  - by destruct (copyCorrectedCode (page_of (doc a))).
  - destruct (copying a); [done|]. by destruct succeeded.
  - cbn [doc on_page page_of in_flight]. unfold toggleSpeech.
    by destruct (flags (page_of (doc a)) isSpeaking).
Qed.

Lemma step_buttons a ev :
  language_shown (doc a) -> language_shown (doc (step a ev)).
Proof.
  unfold Page.language_shown. cbv zeta. intros H. rewrite !step_language.
  destruct ev as [|lang|value| |out| | |succeeded| | |]; cbn [Page.step];
    try exact H.
  - split; [|done]. by apply Forall_map, Forall_true.
  - destruct (flags _ _); [done|].
    by destruct (analyze (page_of (doc a))) as [st'|request k].
  - by destruct (in_flight a).
  - by destruct (copyCorrectedCode (page_of (doc a))).
  - destruct (copying a); [done|]. by destruct succeeded.
Qed.

Lemma step_speak_button a ev :
  speak_button_matches (page_of (doc a)) ->
  speak_button_matches (page_of (doc (step a ev))).
Proof.
  intros H.
  destruct ev as [|lang|value| |out| | |succeeded| | |]; cbn [Page.step];
    try exact H.
  - destruct (flags _ _); [done|].
    destruct (analyze (page_of (doc a))) as [st'|request k] eqn:E; [|done].
    by apply analyze_return in E as [_ ->].
  - destruct (in_flight a); [done|]. by apply resume_speak_button.
  - by split.
  - by destruct (copyCorrectedCode (page_of (doc a))).
  - destruct (copying a); [done|]. by destruct succeeded.
  - cbn [doc on_page page_of]. unfold toggleSpeech.
    destruct (flags (page_of (doc a)) isSpeaking) eqn:Hs; [by split|done].
  - by split.
  - by split.
Qed.

(** X11: Once the page has loaded, the gutter numbers the lines of the code
    in the editor after every event: typing, a reset, and an answer of
    the relay that comes between them. *)
Theorem gutter_follows_code a evs :
  gutter_matches (doc (run (step a LoadEvent) evs)).
Proof.
  apply (run_invariant (fun a => gutter_matches (doc a))).
  - apply step_gutter.
  - reflexivity.
Qed.

(** X12: On a page that starts with the trigger enabled and no call, there
    is never a second relay call before the first has settled, and the
    trigger is disabled exactly while one has not. *)
Theorem one_call_at_a_time a evs :
  in_flight a = 0%nat ->
  flags (page_of (doc a)) analyzeBtn_disabled = false ->
  let a' := run a evs in
  (in_flight a' <= 1)%nat
  /\ (flags (page_of (doc a')) analyzeBtn_disabled = true
      <-> in_flight a' = 1%nat).
Proof.
  intros Hnone Henabled.
  assert (flight_matches (run a evs)) as H.
  { apply run_invariant; [apply step_flight|].
    unfold flight_matches. by rewrite Henabled. }
  unfold flight_matches in H. cbv zeta. rewrite H.
  clear. destruct (flags (page_of (doc (run a evs))) analyzeBtn_disabled);
    split; try split; try done; lia.
Qed.

(** X13: After a click on a language button, and whatever follows it, the
    buttons that are active are those of the current language and the
    label shows its display name. *)
Theorem language_follows_click a lang evs :
  language_shown (doc (run (step a (LangClick lang)) evs)).
Proof.
  apply (run_invariant (fun a => language_shown (doc a))).
  - apply step_buttons.
  - split; [|done]. by apply Forall_map, Forall_true.
Qed.

(** X14: The language of the page is that of the last click on a language
    button, and that is the language [analyze] sends to the relay,
    whatever else has happened since. *)
Theorem language_is_last_click a evs :
  let st := page_of (doc (run a evs)) in
  let lang := last_click (texts (page_of (doc a)) currentLanguage) evs in
  texts st currentLanguage = lang
  /\ forall request k,
       analyze st = Fetch request k -> get request "language" = VStr lang.
Proof.
  cbv zeta.
  assert (texts (page_of (doc (run a evs))) currentLanguage
          = last_click (texts (page_of (doc a)) currentLanguage) evs) as H.
  { unfold Page.run, last_click. revert a.
    induction evs as [|ev evs IH]; intros a; cbn [fold_left]; [done|].
    rewrite IH, step_language. by destruct ev. }
  split; [exact H|].
  intros request k (_ & -> & _)%analyze_fetch. by rewrite H.
Qed.

(** X15: On a page whose speak button starts in the look that goes with
    [isSpeaking], it stays so: the button shows Stop exactly while the
    script takes the speech to be running. *)
Theorem speak_button_follows a evs :
  speak_button_matches (page_of (doc a)) ->
  speak_button_matches (page_of (doc (run a evs))).
Proof.
  intros H.
  by apply (run_invariant (fun a => speak_button_matches (page_of (doc a))));
    [apply step_speak_button|].
Qed.

(** ** [reset] *)

(** X16: [reset] empties the editor and numbers one line, puts the
    placeholder back, hides both panels, empties the status and stops the
    speech, so that [analyze] right after it sends nothing.  It leaves
    the language, the trigger and the text of the corrected code as they
    are: a copy after it writes what a copy before it would have. *)
Theorem reset_clears d :
  let st := page_of (reset d) in
  texts st codeEl_value = []
  /\ split 10 (lineNumbersEl_innerHTML (reset d)) = [decimal 1]
  /\ texts st resultsContentEl_innerHTML = hideResults_html
  /\ flags st errorDetailsEl_hidden = true
  /\ flags st correctedCodeEl_hidden = true
  /\ texts st statusEl_textContent = []
  /\ flags st isSpeaking = false
  /\ (exists st', analyze st = Return st')
  /\ texts st currentLanguage = texts (page_of d) currentLanguage
  /\ flags st analyzeBtn_disabled = flags (page_of d) analyzeBtn_disabled
  /\ copyCorrectedCode st = copyCorrectedCode (page_of d).
Proof.
  cbv zeta. repeat split; try reflexivity.
  eexists. by apply analyze_blank.
Qed.

(** ** The answer on the page *)

Local Abbreviation line_label := (line_label Number_toString).

Lemma text_or_truthy fallback t :
  or_else (VStr t) (VStr (js fallback)) = VStr (text_or fallback (VStr t)).
Proof. by destruct t. Qed.

Lemma showErrorDetails_run e t r st :
  get e "type" = VStr t -> get e "reason" = VStr r ->
  (get e "line" = VNull \/ exists n, get e "line" = VNum n) ->
  showErrorDetails e st
  = (None,
     set_flag errorDetailsEl_hidden false
       (set_text errorLineEl_textContent (line_label (get e "line"))
          (set_text errorReasonEl_textContent (text_or "Unknown" (VStr r))
             (set_text errorTypeEl_textContent
                (text_or "UnknownError" (VStr t)) st)))).
Proof.
  intros Ht Hr Hline. unfold Client.showErrorDetails. cbv zeta.
  rewrite Ht, Hr, !text_or_truthy.
  by destruct Hline as [->|[n ->]].
Qed.

(** When [hasError] is [true] and the error is an error detail, the
    [try] block goes on from the page with the detail shown to
    [showCorrectedCode] and the status. *)
Lemma on_response_error_found data t r st :
  get data "hasError" = VBool true ->
  get (get data "error") "type" = VStr t ->
  get (get data "error") "reason" = VStr r ->
  (get (get data "error") "line" = VNull
   \/ exists n, get (get data "error") "line" = VNum n) ->
  on_response true data st
  = and_then (showCorrectedCode (get data "correctedCode"))
      (exec (setStatus
               (js "Analysis complete - errors found and fixes provided!")))
      (set_flag errorDetailsEl_hidden false
         (set_text errorLineEl_textContent
            (line_label (get (get data "error") "line"))
            (set_text errorReasonEl_textContent (text_or "Unknown" (VStr r))
               (set_text errorTypeEl_textContent
                  (text_or "UnknownError" (VStr t))
                  (set_text resultsContentEl_innerHTML errors_detected_html
                     st))))).
Proof.
  intros Hhas Ht Hr Hline. unfold Client.on_response.
  assert (truthy data = true) as ->
    by (destruct data; try discriminate Hhas; reflexivity).
  assert (truthy (get data "error") = true) as Herr
    by (destruct (get data "error"); try discriminate Ht; reflexivity).
  rewrite Hhas. unfold or_else. rewrite Herr.
  change (has_type (VBool true) TBoolean) with true.
  cbn [negb orb truthy].
  unfold and_then at 1. unfold exec at 1. cbv beta iota.
  unfold and_then at 1.
  by rewrite (showErrorDetails_run _ t r) by done.
Qed.

(** The texts of the error detail are on the page once [analyze] is
    over, whatever [showCorrectedCode] then does. *)
Lemma resume_error_texts data t r st :
  get data "hasError" = VBool true ->
  get (get data "error") "type" = VStr t ->
  get (get data "error") "reason" = VStr r ->
  (get (get data "error") "line" = VNull
   \/ exists n, get (get data "error") "line" = VNum n) ->
  let st' := (resume (RelayResponse true data) st).2 in
  texts st' errorTypeEl_textContent = text_or "UnknownError" (VStr t)
  /\ texts st' errorReasonEl_textContent = text_or "Unknown" (VStr r)
  /\ texts st' errorLineEl_textContent
     = line_label (get (get data "error") "line").
Proof.
  intros Hhas Ht Hr Hline. cbv zeta.
  set (P := fun st' : page =>
    texts st' errorTypeEl_textContent = text_or "UnknownError" (VStr t)
    /\ texts st' errorReasonEl_textContent = text_or "Unknown" (VStr r)
    /\ texts st' errorLineEl_textContent
       = line_label (get (get data "error") "line")).
  change (P (resume (RelayResponse true data) st).2).
  unfold Page.resume, try_catch_finally.
  rewrite (on_response_error_found _ t r) by done.
  match goal with
  | |- context [and_then ?c1 ?c2 ?s] =>
      assert (P (and_then c1 c2 s).2) as H;
        [|destruct (and_then c1 c2 s) as [[e|] st1]; exact H]
  end.
  apply preserves_and_then; [| |by repeat split].
  - unfold Client.showCorrectedCode. preserve.
  - preserve.
Qed.

(** X17: After an answer with an error detail, [speakError] always speaks:
    neither the type nor the reason shown is empty.  It says the type and
    the reason, and the line only when the answer has one. *)
Theorem speech_after_error data t r st :
  get data "hasError" = VBool true ->
  get (get data "error") "type" = VStr t ->
  get (get data "error") "reason" = VStr r ->
  (get (get data "error") "line" = VNull
   \/ exists n, get (get data "error") "line" = VNum n) ->
  speakError voices (resume (RelayResponse true data) st).2
  = Some {| utterance_text :=
              js "Error detected. " ++ text_or "UnknownError" (VStr t)
              ++ js ". " ++ text_or "Unknown" (VStr r) ++ js ". "
              ++ match get (get data "error") "line" with
                 | VNum n => js "on Line " ++ Number_toString n
                 | _ => []
                 end;
            utterance_voice := preferredVoice voices |}.
Proof.
  intros Hhas Ht Hr Hline.
  destruct (resume_error_texts data t r st Hhas Ht Hr Hline)
    as (HT & HR & HL).
  unfold speakError. cbv zeta. rewrite HT, HR, HL.
  assert (truthy (VStr (text_or "UnknownError" (VStr t))) = true) as ->
    by by destruct t.
  assert (truthy (VStr (text_or "Unknown" (VStr r))) = true) as ->
    by by destruct r.
  cbn [negb orb]. do 2 f_equal. do 4 f_equal.
  destruct Hline as [->|[n ->]]; [done|]. by rewrite bool_decide_true.
Qed.

(** X18: After an answer with an error detail and a corrected code that is
    not blank, a click on the copy button writes that code to the
    clipboard as the relay sent it, untrimmed. *)
Theorem copy_after_error data t r code st :
  get data "hasError" = VBool true ->
  get (get data "error") "type" = VStr t ->
  get (get data "error") "reason" = VStr r ->
  (get (get data "error") "line" = VNull
   \/ exists n, get (get data "error") "line" = VNum n) ->
  get data "correctedCode" = VStr code ->
  trim code <> [] ->
  exists k, copyCorrectedCode (resume (RelayResponse true data) st).2
            = WriteText code k.
Proof.
  intros Hhas Ht Hr Hline Hcode Hblank.
  unfold Page.resume, try_catch_finally.
  rewrite (on_response_error_found _ t r) by done.
  rewrite Hcode. unfold Client.showCorrectedCode, and_trim, and_then.
  destruct code as [|c code]; [done|].
  cbn [truthy eval]. destruct (trim (c :: code)) as [|c' code'] eqn:E; [done|].
  cbn [truthy exec string_of]. unfold copyCorrectedCode. by eexists.
Qed.

Lemma resume_completes ok data st st' :
  on_response ok data st = (None, st') ->
  (resume (RelayResponse ok data) st).2
  = set_flag analyzeBtn_disabled false st'.
Proof. intros H. unfold Page.resume, try_catch_finally. by rewrite H. Qed.

(** A failure that is no rate limit shows its message and nothing of
    its details. *)
Lemma on_response_failed data m st :
  get data "error" = VStr m -> m <> [] ->
  get data "isRateLimit" = VUndefined ->
  on_response false data st
  = (None,
     hide_panels
       (set_text resultsContentEl_innerHTML
          (analysis_failed_html (escapeHtml_string m)) st)).
Proof.
  intros Hm Hne Hrate. unfold Client.on_response. cbn [negb]. cbv zeta.
  rewrite Hm, Hrate. by destruct m.
Qed.

Lemma on_response_rate_limited data m d st :
  get data "error" = VStr m -> m <> [] ->
  get data "details" = VStr d -> d <> [] ->
  get data "isRateLimit" = VBool true ->
  on_response false data st
  = (None,
     hide_panels
       (set_text resultsContentEl_innerHTML
          (rate_limit_html (escapeHtml_string m) (escapeHtml_string d)) st)).
Proof.
  intros Hm Hne Hd Hdne Hrate. unfold Client.on_response. cbn [negb].
  cbv zeta. rewrite Hm, Hd, Hrate. by destruct m, d.
Qed.

(** With a corrected code that is a string or [null], the answer is
    shown without an exception. *)
Lemma resume_error_found data t r st :
  get data "hasError" = VBool true ->
  get (get data "error") "type" = VStr t ->
  get (get data "error") "reason" = VStr r ->
  (get (get data "error") "line" = VNull
   \/ exists n, get (get data "error") "line" = VNum n) ->
  (get data "correctedCode" = VNull
   \/ exists s, get data "correctedCode" = VStr s) ->
  let code := get data "correctedCode" in
  let st' := (resume (RelayResponse true data) st).2 in
  texts st' resultsContentEl_innerHTML = errors_detected_html
  /\ flags st' errorDetailsEl_hidden = false
  /\ flags st' correctedCodeEl_hidden = negb (non_blank_string code)
  /\ (non_blank_string code = true ->
      texts st' fixedContentEl_textContent = string_of code)
  /\ texts st' statusEl_textContent
     = js "Analysis complete - errors found and fixes provided!".
Proof.
  intros Hhas Ht Hr Hline Hcode. cbv zeta.
  unfold Page.resume, try_catch_finally.
  rewrite (on_response_error_found _ t r) by done.
  unfold Client.showCorrectedCode, and_trim, and_then, non_blank_string.
  destruct Hcode as [->|[[|c s] ->]]; cbn [truthy eval exec];
    [by repeat split..|].
  destruct (trim (c :: s)) as [|c' s']; cbn [truthy eval exec negb string_of];
    by repeat split.
Qed.

End Host.

(** ** The voice *)

Lemma starts_with_prefix p s :
  starts_with p s = true <-> exists post, s = p ++ post.
Proof.
  revert s. induction p as [|a p IH]; intros s; cbn.
  - split; [by eexists|done].
  - destruct s as [|b s]; [split; [done|by intros [post [=]]]|].
    rewrite andb_true_iff, N.eqb_eq, IH. split.
    + intros [-> [post ->]]. by exists post.
    + intros [post [= -> ->]]. eauto.
Qed.

(** [includes] finds [sub] exactly when it is a run of [s]. *)
Lemma includes_run sub s :
  includes sub s = true <-> exists pre post, s = pre ++ sub ++ post.
Proof.
  induction s as [|c s IH]; cbn [includes]; rewrite orb_true_iff.
  - rewrite starts_with_prefix. split.
    + intros [[post H]|[=]]. by exists [], post.
    + intros (pre & post & H). left. symmetry in H.
      apply app_eq_nil in H as [-> [-> ->]%app_eq_nil]. by exists [].
  - rewrite starts_with_prefix, IH. split.
    + intros [[post H]|(pre & post & ->)]; [by exists [], post|].
      by exists (c :: pre), post.
    + intros ([|c' pre] & post & H); [left; by exists post|].
      right. injection H as -> ->. by exists pre, post.
Qed.

(** X19: The voice of the utterance is the first voice of the host that is
    English by its language tag and Google by its name; when there is
    none it is the first voice, and no voice is set only when the host has
    none. *)
Theorem preferredVoice_first voices :
  let wanted v :=
    (exists pre post, voice_lang v = pre ++ js "en" ++ post)
    /\ (exists pre post, voice_name v = pre ++ js "Google" ++ post) in
  match preferredVoice voices with
  | None => voices = []
  | Some v =>
      (exists before after,
         voices = before ++ v :: after /\ wanted v
         /\ Forall (fun u => ~ wanted u) before)
      \/ (head voices = Some v /\ Forall (fun u => ~ wanted u) voices)
  end.
Proof.
  cbv zeta. unfold preferredVoice.
  set (test := fun v => includes (js "en") (voice_lang v)
                        && includes (js "Google") (voice_name v)).
  assert (forall v, test v = true <->
            (exists pre post, voice_lang v = pre ++ js "en" ++ post)
            /\ (exists pre post, voice_name v = pre ++ js "Google" ++ post))
    as Htest.
  { intros v. unfold test. by rewrite andb_true_iff, !includes_run. }
  induction voices as [|u voices IH]; [done|].
  cbn [List.find]. destruct (test u) eqn:Hu.
  - left. exists [], voices. repeat split; [by apply Htest..|constructor].
  - assert (~ ((exists pre post, voice_lang u = pre ++ js "en" ++ post)
               /\ (exists pre post,
                     voice_name u = pre ++ js "Google" ++ post))) as Hnot
      by (rewrite <- Htest, Hu; discriminate).
    destruct (List.find test voices) as [v|] eqn:Hfind.
    + left. destruct IH as [(before & after & -> & Hv & Hbefore)|[_ Hnone]].
      * exists (u :: before), after. repeat split; try apply Hv.
        by constructor.
      * exfalso. apply find_some in Hfind as [Hin Hv].
        apply Htest in Hv. rewrite List.Forall_forall in Hnone.
        by apply (Hnone v).
    + right. split; [done|]. constructor; [done|].
      apply List.Forall_forall. intros x Hin Hx%Htest.
      by rewrite (find_none _ _ Hfind x Hin) in Hx.
Qed.

(** ** Concrete runs *)

(** [escapeHtml_injective] at a tag. *)
Lemma escapeHtml_injective_witness :
  escapeHtml_string (js "<b>") = escapeHtml_string (js "<b>")
  /\ js "<b>" = js "<b>".
Proof.
  split; [reflexivity|].
  exact (escapeHtml_injective (js "<b>") (js "<b>") eq_refl).
Defined.

(** [one_call_at_a_time] after two clicks on the trigger in a row: one
    call is in flight and the trigger is disabled. *)
Lemma one_call_at_a_time_witness :
  in_flight Visits.opened = 0%nat
  /\ flags (page_of (doc Visits.opened)) analyzeBtn_disabled = false
  /\ (in_flight (Visits.run Visits.opened Visits.asking) <= 1)%nat
  /\ (flags (page_of (doc (Visits.run Visits.opened Visits.asking)))
            analyzeBtn_disabled = true
      <-> in_flight (Visits.run Visits.opened Visits.asking) = 1%nat).
Proof.
  split; [reflexivity|]. split; [reflexivity|].
  exact (one_call_at_a_time Runs.host_number_toString Runs.host_no_method
           Runs.host_type_error Visits.host_inherited_text Visits.voices
           Visits.opened Visits.asking eq_refl eq_refl).
Defined.

(** [speak_button_follows] over the whole visit. *)
Lemma speak_button_follows_witness :
  speak_button_matches (page_of (doc Visits.opened))
  /\ speak_button_matches
       (page_of (doc (Visits.run Visits.opened Visits.visit))).
Proof.
  assert (speak_button_matches (page_of (doc Visits.opened))) as H
    by (split; reflexivity).
  split; [exact H|].
  exact (speak_button_follows Runs.host_number_toString Runs.host_no_method
           Runs.host_type_error Visits.host_inherited_text Visits.voices
           Visits.opened Visits.visit H).
Defined.

(** [speech_after_error] at the answer for a missing parenthesis: the
    English Google voice says the type, the reason and the line. *)
Lemma speech_after_error_witness :
  speakError Visits.voices
    (Visits.resume Runs.relay_found_error Visits.loaded_page).2
  = Some {| utterance_text :=
              js "Error detected. SyntaxError. missing ). on Line 1";
            utterance_voice :=
              Some {| voice_lang := js "en-US";
                      voice_name := js "Google US English" |} |}.
Proof.
  exact (speech_after_error Runs.host_number_toString Runs.host_no_method
           Runs.host_type_error Visits.voices Runs.found_error
           (js "SyntaxError") (js "missing )") Visits.loaded_page
           eq_refl eq_refl eq_refl
           (or_intror (ex_intro _ _ eq_refl))).
Defined.

(** [copy_after_error] at the same answer. *)
Lemma copy_after_error_witness :
  exists k,
    copyCorrectedCode
      (Visits.resume Runs.relay_found_error Visits.loaded_page).2
    = WriteText (js "print('hi')") k.
Proof.
  apply (copy_after_error Runs.host_number_toString Runs.host_no_method
           Runs.host_type_error Runs.found_error
           (js "SyntaxError") (js "missing )") (js "print('hi')")
           Visits.loaded_page eq_refl eq_refl eq_refl
           (or_intror (ex_intro _ _ eq_refl)) eq_refl).
  by vm_compute.
Defined.

End PageFacts.

(* ===================================================================== *)
(** * The page, the relay and the provider together                       *)
(* ===================================================================== *)
Module ExchangeFacts.
Import JS Client Page Exchange.

Lemma get_wire props name :
  get (default VNull (wire (VObj props))) name
  = default VUndefined (props !! js name ≫= wire).
Proof. cbn. by rewrite lookup_omap. Qed.

(** The properties of an object literal. *)
Local Abbreviation literal kvs :=
  (list_to_map (reverse (map (fun kv : string * value => (js kv.1, kv.2)) kvs))
     : gmap (list N) value).

Lemma get_wire_object kvs name :
  get (default VNull (wire (object kvs))) name
  = default VUndefined (literal kvs !! js name ≫= wire).
Proof. apply get_wire. Qed.

Lemma get_get_wire kvs outer inner name :
  literal kvs !! js outer = Some (object inner) ->
  get (get (default VNull (wire (object kvs))) outer) name
  = default VUndefined (literal inner !! js name ≫= wire).
Proof. intros H. rewrite get_wire_object, H. cbn. by rewrite lookup_omap. Qed.

Section Hosts.

Variable JSON_parse : jsstring -> option value.
Variable JSON_stringify : value -> value.
Variable SyntaxError_message : jsstring -> jsstring.
Variable cannot_destructure : value -> exn.
Variable Number_toString : number -> jsstring.
Variable no_such_method : value -> string -> exn.
Variable no_primitive : value -> exn.

Local Abbreviation handle_reply :=
  (Server.handle_reply JSON_parse JSON_stringify SyntaxError_message).
Local Abbreviation api_analyze :=
  (Server.api_analyze JSON_parse JSON_stringify SyntaxError_message
                      cannot_destructure).
Local Abbreviation parsed_reply := (Server.parsed_reply JSON_parse).
Local Abbreviation analyze :=
  (analyze Number_toString no_such_method no_primitive).
Local Abbreviation resume :=
  (resume Number_toString no_such_method no_primitive).
Local Abbreviation line_text := (line_text Number_toString).
Local Abbreviation line_label := (line_label Number_toString).

(** ** The request *)



(** ** The answer *)

Lemma received_normalize parsed :
  received (Server.normalize parsed)
  = RelayResponse true
      (default VNull (wire (Server.body (Server.normalize parsed)))).
Proof. unfold received. by rewrite RelayFacts.normalize_status. Qed.

(** An answer with an error as the page reads it. *)
Lemma wired_error_answer t r l c :
  let data :=
    default VNull
      (wire (object [("hasError", VBool true);
                     ("error", object [("type", VStr t); ("reason", VStr r);
                                       ("line", l)]);
                     ("correctedCode", c)])) in
  get data "hasError" = VBool true
  /\ get (get data "error") "type" = VStr t
  /\ get (get data "error") "reason" = VStr r
  /\ get (get data "error") "line" = default VUndefined (wire l)
  /\ get data "correctedCode" = default VUndefined (wire c).
Proof.
  cbv zeta.
  rewrite !(get_get_wire _ "error"
              [("type", VStr t); ("reason", VStr r); ("line", l)])
    by reflexivity.
  rewrite !get_wire_object. by repeat split.
Qed.

Lemma text_or_string_or fallback v :
  text_or fallback (VStr (string_of (Server.string_or fallback v)))
  = text_or fallback v.
Proof.
  destruct v as [| | | |[|c s]| |]; try reflexivity.
  all: unfold Server.string_or, string_of, text_or; by destruct (js fallback).
Qed.

Lemma wired_error parsed :
  truthy (get parsed "hasError") = true ->
  let data := default VNull (wire (Server.body (Server.normalize parsed))) in
  get data "hasError" = VBool true
  /\ exists t r,
       get (get data "error") "type" = VStr t
       /\ get (get data "error") "reason" = VStr r
       /\ text_or "UnknownError" (VStr t)
          = text_or "UnknownError" (get (get parsed "error") "type")
       /\ text_or "Unknown" (VStr r)
          = text_or "Unknown" (get (get parsed "error") "reason")
       /\ (get (get data "error") "line" = VNull
           \/ exists n, get (get data "error") "line" = VNum n)
       /\ line_label (get (get data "error") "line")
          = line_text (get (get parsed "error") "line")
       /\ (Server.is_object (get parsed "error") = true ->
           get data "correctedCode"
           = Server.string_or_null (get parsed "correctedCode")).
Proof.
  intros Htrue. cbv zeta.
  destruct (Server.is_object (get parsed "error")) eqn:Hobj.
  - rewrite (ServerFacts.normalize_error_object _ Htrue Hobj).
    rewrite (RelayFacts.string_or_is_string "UnknownError"),
      (RelayFacts.string_or_is_string "Unknown").
    unfold Server.res_json, Server.body.
    destruct (wired_error_answer
                (string_of (Server.string_or "UnknownError"
                              (get (get parsed "error") "type")))
                (string_of (Server.string_or "Unknown"
                              (get (get parsed "error") "reason")))
                (Server.number_or_null (get (get parsed "error") "line"))
                (Server.string_or_null (get parsed "correctedCode")))
      as (Hhas & Ht & Hr & Hline & Hcode).
    split; [exact Hhas|]. do 2 eexists.
    split; [exact Ht|]. split; [exact Hr|].
    rewrite Hline, Hcode, !text_or_string_or.
    repeat split.
    + destruct (get (get parsed "error") "line") as [| | |[]| | |]; cbn; eauto.
    + by destruct (get (get parsed "error") "line") as [| | |[]| | |].
    + intros _. by destruct (get parsed "correctedCode").
  - rewrite (ServerFacts.normalize_placeholder _ Htrue Hobj).
    unfold Server.res_json, Server.body, Server.unknown_error.
    destruct (wired_error_answer (js "UnknownError") (js "Unknown") VNull
                (nullish (get parsed "correctedCode") VNull))
      as (Hhas & Ht & Hr & Hline & Hcode).
    split; [exact Hhas|]. do 2 eexists.
    split; [exact Ht|]. split; [exact Hr|].
    rewrite Hline.
    assert (forall name, get (get parsed "error") name = VUndefined) as Hno
      by (intros name; by destruct (get parsed "error")).
    rewrite !Hno. repeat split; try done. by left.
Qed.

(** X21: For every reply of the model that says there is an error, the page
    shows the type and the reason, each replaced by its fallback when it
    is no string or empty, and the line when it is a finite number; the
    trigger is enabled again.  When the error is an object, the panel of
    the error is shown, and that of the corrected code exactly when the
    reply has a corrected code that is a string and not blank. *)
Theorem relayed_error_shown up parsed st :
  parsed_reply up parsed ->
  truthy (get parsed "hasError") = true ->
  let error := get parsed "error" in
  let code := get parsed "correctedCode" in
  let st' := (resume (received (handle_reply up)) st).2 in
  texts st' errorTypeEl_textContent = text_or "UnknownError" (get error "type")
  /\ texts st' errorReasonEl_textContent = text_or "Unknown" (get error "reason")
  /\ texts st' errorLineEl_textContent = line_text (get error "line")
  /\ flags st' analyzeBtn_disabled = false
  /\ (Server.is_object error = true ->
      texts st' resultsContentEl_innerHTML = errors_detected_html
      /\ flags st' errorDetailsEl_hidden = false
      /\ flags st' correctedCodeEl_hidden = negb (non_blank_string code)
      /\ (non_blank_string code = true ->
          texts st' fixedContentEl_textContent = string_of code)
      /\ texts st' statusEl_textContent
         = js "Analysis complete - errors found and fixes provided!").
Proof.
  intros Hreply Htrue. cbv zeta.
  rewrite (ServerFacts.handle_reply_parsed _ _ _ _ _ Hreply),
    received_normalize.
  destruct (wired_error parsed Htrue)
    as (Hhas & t & r & Ht & Hr & HT & HR & Hline & HL & Hcode).
  destruct (PageFacts.resume_error_texts Number_toString no_such_method
              no_primitive _ t r st Hhas Ht Hr Hline) as (H1 & H2 & H3).
  rewrite H1, H2, H3, HT, HR, HL.
  split; [done|]. split; [done|]. split; [done|]. split.
  { apply ClientFacts.try_catch_finally_enabled. }
  intros Hobj. specialize (Hcode Hobj).
  assert (get (default VNull
                 (wire (Server.body (Server.normalize parsed))))
              "correctedCode" = VNull
          \/ exists s,
               get (default VNull
                      (wire (Server.body (Server.normalize parsed))))
                   "correctedCode" = VStr s) as Hshape.
  { rewrite Hcode. destruct (get parsed "correctedCode"); eauto. }
  destruct (PageFacts.resume_error_found Number_toString no_such_method
              no_primitive _ t r st Hhas Ht Hr Hline Hshape)
    as (G1 & G2 & G3 & G4 & G5).
  rewrite Hcode in G3, G4.
  assert (non_blank_string
            (Server.string_or_null (get parsed "correctedCode"))
          = non_blank_string (get parsed "correctedCode")) as Hnb
    by by destruct (get parsed "correctedCode").
  rewrite Hnb in G3, G4.
  repeat split; try done.
  intros Hyes. rewrite (G4 Hyes).
  by destruct (get parsed "correctedCode").
Qed.

(** X22: For every reply of the model that says there is no error, the page
    shows the panel of [showNoError], hides the two others, says so in
    the status and enables the trigger. *)
Theorem relayed_no_error_shown up parsed st :
  parsed_reply up parsed ->
  truthy (get parsed "hasError") = false ->
  let st' := (resume (received (handle_reply up)) st).2 in
  texts st' resultsContentEl_innerHTML = showNoError_html
  /\ flags st' errorDetailsEl_hidden = true
  /\ flags st' correctedCodeEl_hidden = true
  /\ texts st' statusEl_textContent
     = js "Analysis complete - no errors found!"
  /\ flags st' analyzeBtn_disabled = false.
Proof.
  intros Hreply Hfalse. cbv zeta.
  rewrite (ServerFacts.handle_reply_parsed _ _ _ _ _ Hreply),
    (ServerFacts.normalize_no_error _ Hfalse).
  by repeat split.
Qed.

Lemma failure_messages_plain m :
  m ∈ failure_messages -> escapeHtml_string m = m /\ m <> [].
Proof.
  unfold failure_messages. intros H.
  repeat (apply elem_of_cons in H as [->|H]; [by vm_compute|]).
  by apply elem_of_nil in H.
Qed.

(** What the page reads of an answer of the relay that is no success:
    the message of a rate limit with its details, or one of the four
    other messages and no rate-limit mark. *)
Lemma wired_failure up :
  Server.status (handle_reply up) <> 200%Z ->
  exists data,
    received (handle_reply up) = RelayResponse false data
    /\ (((exists text, up = Server.Replied 429 text)
         /\ get data "error"
            = VStr (js "Rate limit exceeded. Please wait a moment before trying again.")
         /\ get data "details"
            = VStr (js "Free tier limit: 20 requests per day. Try again later or upgrade your plan.")
         /\ get data "isRateLimit" = VBool true)
        \/ (exists m, m ∈ failure_messages
                      /\ get data "error" = VStr m
                      /\ get data "isRateLimit" = VUndefined)).
Proof.
  unfold Server.handle_reply, Server.server_error, failure_messages.
  intros Hstatus.
  destruct up as [e|upstream_status text].
  { unfold received; cbn [Server.status Server.body];
    eexists; (split; [reflexivity|]). right. eexists.
    rewrite !get_wire_object. split; [|by split].
    repeat constructor. }
  destruct (Server.ok upstream_status) eqn:Hok; cbn [negb] in *.
  - destruct (JSON_parse text) as [data|].
    2: { unfold received; cbn [Server.status Server.body];
    eexists; (split; [reflexivity|]). right. eexists.
         rewrite !get_wire_object. split; [|by split].
         repeat constructor. }
    cbv zeta in *.
    destruct (negb (truthy (Server.text_payload data))
              || negb (has_type (Server.text_payload data) TString)).
    { unfold received; cbn [Server.status Server.body];
    eexists; (split; [reflexivity|]). right. eexists.
      rewrite !get_wire_object. split; [|by split].
      repeat constructor. }
    destruct (JSON_parse (string_of (Server.text_payload data))) as [parsed|].
    { by rewrite RelayFacts.normalize_status in Hstatus. }
    unfold received; cbn [Server.status Server.body];
    eexists; (split; [reflexivity|]). right. eexists.
    rewrite !get_wire_object. split; [|by split].
    repeat constructor.
  - destruct (upstream_status =? 429)%Z eqn:Hlimit.
    + apply Z.eqb_eq in Hlimit as ->.
      unfold received; cbn [Server.status Server.body];
    eexists; (split; [reflexivity|]). left.
      rewrite !get_wire_object. by repeat split; eauto.
    + unfold received; cbn [Server.status Server.body];
    eexists; (split; [reflexivity|]). right. eexists.
      rewrite !get_wire_object. split; [|by split].
      repeat constructor.
Qed.

(** X23: For every outcome of the provider's side that the relay answers
    with a failure, the page shows the panel of the rate limit, with the
    relay's message and details, or the panel of a failed analysis with
    one of the relay's four messages: the body of the provider's reply is
    never put on the page.  Both result panels are hidden, the status
    text is left as it was, and the trigger is enabled again. *)
Theorem relayed_failure_shown up st :
  Server.status (handle_reply up) <> 200%Z ->
  let st' := (resume (received (handle_reply up)) st).2 in
  (((exists text, up = Server.Replied 429 text)
    /\ texts st' resultsContentEl_innerHTML
       = rate_limit_html
           (js "Rate limit exceeded. Please wait a moment before trying again.")
           (js "Free tier limit: 20 requests per day. Try again later or upgrade your plan."))
   \/ (exists m, m ∈ failure_messages
                 /\ texts st' resultsContentEl_innerHTML
                    = analysis_failed_html m))
  /\ flags st' errorDetailsEl_hidden = true
  /\ flags st' correctedCodeEl_hidden = true
  /\ texts st' statusEl_textContent = texts st statusEl_textContent
  /\ flags st' analyzeBtn_disabled = false.
Proof.
  intros Hstatus. cbv zeta.
  destruct (wired_failure up Hstatus)
    as (data & -> & [(Hup & Hm & Hd & Hrate)|(m & Hin & Hm & Hrate)]).
  - rewrite (PageFacts.resume_completes _ _ _ _ _ _ _
               (PageFacts.on_response_rate_limited Number_toString
                  no_such_method no_primitive data _ _ st Hm
                  ltac:(discriminate) Hd ltac:(discriminate) Hrate)).
    split; [|by repeat split]. left. split; [exact Hup|].
    by vm_compute.
  - destruct (failure_messages_plain m Hin) as [Hplain Hne].
    rewrite (PageFacts.resume_completes _ _ _ _ _ _ _
               (PageFacts.on_response_failed Number_toString
                  no_such_method no_primitive data m st Hm Hne Hrate)).
    split; [|by repeat split]. right. exists m. split; [exact Hin|].
    cbn [texts set_flag hide_panels set_text]. by rewrite Hplain.
Qed.

(** X24: When the model's reply says there is an error, gives no error
    object, and has for [correctedCode] something that arrives truthy and
    is no string (a number other than zero, [true], an array, an
    object), the relay passes it on and the page, calling [trim] on it,
    ends in its [catch]: it shows the panel of the connection error with
    the host's message for the missing method, and hides both result
    panels. *)
Theorem relayed_non_string_code up parsed st :
  parsed_reply up parsed ->
  truthy (get parsed "hasError") = true ->
  Server.is_object (get parsed "error") = false ->
  truthy (default VNull (wire (nullish (get parsed "correctedCode") VNull)))
  = true ->
  (forall s,
     default VNull (wire (nullish (get parsed "correctedCode") VNull))
     <> VStr s) ->
  let code :=
    default VNull (wire (nullish (get parsed "correctedCode") VNull)) in
  let st' := (resume (received (handle_reply up)) st).2 in
  texts st' resultsContentEl_innerHTML
  = connection_error_html
      (escapeHtml_string (message (no_such_method code "trim")))
  /\ flags st' errorDetailsEl_hidden = true
  /\ flags st' correctedCodeEl_hidden = true
  /\ flags st' isSpeaking = false
  /\ flags st' analyzeBtn_disabled = false.
Proof.
  intros Hreply Htrue Hobj Htruthy Hstr. cbv zeta.
  rewrite (ServerFacts.handle_reply_parsed _ _ _ _ _ Hreply),
    received_normalize, (ServerFacts.normalize_placeholder _ Htrue Hobj).
  unfold Server.res_json, Server.body, Server.unknown_error.
  destruct (wired_error_answer (js "UnknownError") (js "Unknown") VNull
              (nullish (get parsed "correctedCode") VNull))
    as (Hhas & Ht & Hr & Hline & Hcode).
  assert (default VUndefined
            (wire (nullish (get parsed "correctedCode") VNull))
          = default VNull
              (wire (nullish (get parsed "correctedCode") VNull))) as Hsame
    by by destruct (get parsed "correctedCode").
  rewrite Hsame in Hcode.
  unfold Page.resume, try_catch_finally.
  rewrite (PageFacts.on_response_error_found Number_toString no_such_method
             no_primitive _ (js "UnknownError") (js "Unknown") st Hhas Ht Hr
             (or_introl Hline)).
  rewrite Hcode.
  unfold showCorrectedCode, and_trim, and_then. rewrite Htruthy.
  destruct (default VNull
              (wire (nullish (get parsed "correctedCode") VNull)))
    as [| | | |s| |] eqn:E; try by repeat split.
  by destruct (Hstr s).
Qed.

End Hosts.

(** ** Concrete runs *)


(** [relayed_error_shown] at a reply with a [SyntaxError] at line 1 and
    the number 7 for a reason. *)
Lemma relayed_error_shown_witness :
  texts (Visits.page_after Runs.reply_syntax_error) errorTypeEl_textContent
  = js "SyntaxError"
  /\ texts (Visits.page_after Runs.reply_syntax_error)
           errorReasonEl_textContent = js "Unknown"
  /\ texts (Visits.page_after Runs.reply_syntax_error) errorLineEl_textContent
     = js "Line 1"
  /\ flags (Visits.page_after Runs.reply_syntax_error) errorDetailsEl_hidden
     = false
  /\ flags (Visits.page_after Runs.reply_syntax_error) correctedCodeEl_hidden
     = false
  /\ texts (Visits.page_after Runs.reply_syntax_error)
           fixedContentEl_textContent = js "print('hi')".
Proof.
  destruct (relayed_error_shown JSON.parse Runs.host_stringify
              Runs.host_syntax_message Runs.host_number_toString
              Runs.host_no_method Runs.host_type_error
              Runs.reply_syntax_error Runs.parsed_syntax_error
              Visits.loaded_page ServerFacts.parsed_reply_syntax_error
              eq_refl) as (H1 & H2 & H3 & _ & H4).
  destruct (H4 eq_refl) as (_ & H5 & H6 & H7 & _).
  split; [exact H1|]. split; [exact H2|]. split; [exact H3|].
  split; [exact H5|]. split; [exact H6|]. exact (H7 eq_refl).
Defined.

(** [relayed_no_error_shown] at a reply that reports no error. *)
Lemma relayed_no_error_shown_witness :
  texts (Visits.page_after Runs.reply_no_error) resultsContentEl_innerHTML
  = showNoError_html
  /\ flags (Visits.page_after Runs.reply_no_error) errorDetailsEl_hidden = true
  /\ flags (Visits.page_after Runs.reply_no_error) correctedCodeEl_hidden
     = true
  /\ texts (Visits.page_after Runs.reply_no_error) statusEl_textContent
     = js "Analysis complete - no errors found!"
  /\ flags (Visits.page_after Runs.reply_no_error) analyzeBtn_disabled = false.
Proof.
  exact (relayed_no_error_shown JSON.parse Runs.host_stringify
           Runs.host_syntax_message Runs.host_number_toString
           Runs.host_no_method Runs.host_type_error
           Runs.reply_no_error Runs.parsed_no_error
           Visits.loaded_page ServerFacts.parsed_reply_no_error eq_refl).
Defined.

(** [relayed_failure_shown] at a provider that answers 503 with a body
    of markup: the page shows one of the relay's messages, and none of
    that body. *)
Lemma relayed_failure_shown_witness :
  exists m,
    m ∈ failure_messages
    /\ texts (Visits.page_after
                (Server.Replied 503 (js "<h1>Unavailable</h1>")))
             resultsContentEl_innerHTML
       = analysis_failed_html m.
Proof.
  destruct (relayed_failure_shown JSON.parse Runs.host_stringify
              Runs.host_syntax_message Runs.host_number_toString
              Runs.host_no_method Runs.host_type_error
              (Server.Replied 503 (js "<h1>Unavailable</h1>"))
              Visits.loaded_page ltac:(discriminate))
    as [[[[text Hup] _]|H] _].
  - discriminate Hup.
  - exact H.
Defined.

(** [relayed_non_string_code] at a reply with the number 5 for
    [correctedCode]. *)
Lemma relayed_non_string_code_witness :
  texts (Visits.page_after Runs.reply_number_code) resultsContentEl_innerHTML
  = connection_error_html (js "TypeError")
  /\ flags (Visits.page_after Runs.reply_number_code) errorDetailsEl_hidden
     = true
  /\ flags (Visits.page_after Runs.reply_number_code) correctedCodeEl_hidden
     = true
  /\ flags (Visits.page_after Runs.reply_number_code) isSpeaking = false
  /\ flags (Visits.page_after Runs.reply_number_code) analyzeBtn_disabled
     = false.
Proof.
  assert (Server.parsed_reply JSON.parse Runs.reply_number_code
            (object [("hasError", VBool true); ("correctedCode", int 5)]))
    as Hreply.
  { do 4 eexists. split; [reflexivity|]. split; [reflexivity|].
    split; [vm_compute; reflexivity|]. split; [reflexivity|].
    split; [discriminate|]. vm_compute. reflexivity. }
  exact (relayed_non_string_code JSON.parse Runs.host_stringify
           Runs.host_syntax_message Runs.host_number_toString
           Runs.host_no_method Runs.host_type_error
           Runs.reply_number_code _ Visits.loaded_page Hreply
           eq_refl eq_refl eq_refl ltac:(discriminate)).
Defined.

End ExchangeFacts.
